(** * YouTubeUploader (src/services/youtube/uploader.js)

    A shallow embedding of the uploader facade: the request body that
    [uploadVideo] builds from caller metadata, the progress reporter that
    runs inside [onUploadProgress], and the five small request/response
    operations.  JavaScript numbers are IEEE-754 binary64 values, modelled
    with the Standard Library's executable [spec_float]; JavaScript objects
    used as dictionaries are [gmap string value], the own data properties of
    an ordinary object (one whose prototype is [Object.prototype], as an
    object literal or parsed JSON gives); effects (console output,
    file system reads, remote calls, progress callbacks) are recorded in a
    trace by a small state/exception monad. *)

From Stdlib Require Import ZArith Lia Bool List Ascii String.
From Stdlib Require Import Floats.SpecFloat.
From stdpp Require Import base option list sorting gmap strings.

Local Open Scope Z_scope.

(** ** JavaScript numbers *)

Module JSNum.

Definition prec : Z := 53.
Definition emax : Z := 1024.

Definition number : Type := spec_float.

Definition NaN : number := S754_nan.
Definition Infinity : number := S754_infinity false.

(** The number denoted by an integer literal or an integer-valued
    runtime quantity (a byte count, a clock reading). *)
Definition of_Z (z : Z) : number := binary_normalize prec emax z 0 false.

Definition add : number -> number -> number := SFadd prec emax.
Definition sub : number -> number -> number := SFsub prec emax.
Definition mul : number -> number -> number := SFmul prec emax.
Definition div : number -> number -> number := SFdiv prec emax.

(** [x < y], [x > y], [x >= y]: false as soon as one side is NaN. *)
Definition lt (x y : number) : bool := SFltb x y.
Definition gt (x y : number) : bool := SFltb y x.
Definition ge (x y : number) : bool := SFleb y x.

(** Integer and fractional part of the magnitude [m * 2^e] when [e < 0]:
    [m = q * 2^(-e) + r] with [0 <= r < 2^(-e)]. *)
Definition split_mantissa (m : positive) (e : Z) : Z * Z :=
  (Z.shiftr (Zpos m) (- e), Z.land (Zpos m) (Z.ones (- e))).

Definition signed_int (s : bool) (n : Z) : number :=
  if n =? 0 then S754_zero s else of_Z (cond_Zopp s n).

(** [Math.floor]. *)
Definition Math_floor (x : number) : number :=
  match x with
  | S754_finite s m e =>
      if 0 <=? e then x
      else
        let '(q, r) := split_mantissa m e in
        if s then signed_int true (if r =? 0 then q else q + 1)
        else signed_int false q
  | _ => x
  end.

(** [Math.round]: nearest integer, a tie going towards +Infinity. *)
Definition Math_round (x : number) : number :=
  match x with
  | S754_finite s m e =>
      if 0 <=? e then x
      else
        let '(q, r) := split_mantissa m e in
        let half := Z.shiftl 1 (- e - 1) in
        if s then signed_int true (if half <? r then q + 1 else q)
        else signed_int false (if half <=? r then q + 1 else q)
  | _ => x
  end.

(** The [%] operator: the exact remainder, with the sign of the
    dividend. *)
Definition rem (x y : number) : number :=
  match x, y with
  | S754_nan, _ | _, S754_nan => S754_nan
  | S754_infinity _, _ => S754_nan
  | _, S754_zero _ => S754_nan
  | _, S754_infinity _ => x
  | S754_zero _, _ => x
  | S754_finite sx mx ex, S754_finite _ my ey =>
      let e := Z.min ex ey in
      let r := Z.rem (Z.shiftl (Zpos mx) (ex - e)) (Z.shiftl (Zpos my) (ey - e)) in
      if r =? 0 then S754_zero sx
      else binary_normalize prec emax (cond_Zopp sx r) e sx
  end.

End JSNum.

Import JSNum.

(** ** JavaScript values *)

#[warnings="-register-all"] Inductive value : Type :=
| VUndefined
| VNull
| VBool (b : bool)
| VNum (n : number)
| VStr (s : string)
| VArr (items : list value)
| VObj (props : gmap string value).

(** What propagates out of a [throw]: the error's kind and message, and its
    [response] property (set by the API client on remote failures,
    [undefined] on errors raised locally). *)
Inductive error_kind : Type := PlainError | TypeError | RangeError | RemoteError.

Record error : Type := mkError {
  err_kind : error_kind;
  err_message : string;
  err_response : value
}.

Definition new_Error (msg : string) : error := mkError PlainError msg VUndefined.

Inductive outcome (A : Type) : Type :=
| Return (a : A)
| Throw (e : error).
Arguments Return {A} a.
Arguments Throw {A} e.

Module JS.

(** ToBoolean. *)
Definition truthy (v : value) : bool :=
  match v with
  | VUndefined | VNull => false
  | VBool b => b
  | VNum (S754_zero _) | VNum S754_nan => false
  | VNum _ => true
  | VStr s => negb (String.eqb s EmptyString)
  | VArr _ | VObj _ => true
  end.

(** [a || b] on values. *)
Definition or (a b : value) : value := if truthy a then a else b.

(** [v !== false]. *)
Definition strict_ne_false (v : value) : bool :=
  match v with
  | VBool false => false
  | _ => true
  end.

(** [o.k] for an object used as a dictionary of data properties, [k] being
    none of the names [Object.prototype] defines. *)
Definition prop (o : gmap string value) (k : string) : value :=
  default VUndefined (o !! k).

(** [o.hasOwnProperty(k)].  The method is looked up on the object like any
    other property: an own entry named [hasOwnProperty] shadows the method
    inherited from [Object.prototype] and, being a data value, cannot be
    called, so the call throws a TypeError; without such an entry the
    inherited method tells whether [k] is an own entry. *)
Definition hasOwnProperty (o : gmap string value) (k : string) : outcome bool :=
  match o !! "hasOwnProperty" with
  | Some _ => Throw (mkError TypeError "hasOwnProperty is not a function" VUndefined)
  | None => Return (bool_decide (is_Some (o !! k)))
  end.

(** [v.k] on an arbitrary value, for the data properties the facade
    reads from remote records ([id], [statistics], [videoCount],
    [contentDetails], [contentRatings], [data]): reading a property of
    [undefined] or [null] throws, an object yields its own entry, and a
    primitive or an array has none of these names. *)
Definition get (v : value) (k : string) : outcome value :=
  match v with
  | VUndefined | VNull =>
      Throw (mkError TypeError ("Cannot read properties of undefined or null: " +:+ k) VUndefined)
  | VObj o => Return (prop o k)
  | _ => Return VUndefined
  end.

End JS.

(** ** Dates: [Date.prototype.toISOString] *)

Module ISO.

Definition msPerDay : Z := 86400000.
Definition maxTimeValue : Z := 8640000000000000.

(** The [n] low decimal digits of [k], most significant first. *)
Fixpoint digits (n : nat) (k : Z) : string :=
  match n with
  | O => EmptyString
  | S n' => digits n' (k / 10) +:+
            String (Ascii.ascii_of_nat (48 + Z.to_nat (k mod 10))) EmptyString
  end.

(** Proleptic Gregorian (year, month, day) of a day number counted from
    1970-01-01. *)
Definition civil_from_days (days : Z) : Z * Z * Z :=
  let z := days + 719468 in
  let era := z / 146097 in
  let doe := z - era * 146097 in
  let yoe := (doe - doe / 1460 + doe / 36524 - doe / 146096) / 365 in
  let doy := doe - (365 * yoe + yoe / 4 - yoe / 100) in
  let mp := (5 * doy + 2) / 153 in
  let d := doy - (153 * mp + 2) / 5 + 1 in
  let m := if mp <? 10 then mp + 3 else mp - 9 in
  let y := yoe + era * 400 + (if m <=? 2 then 1 else 0) in
  (y, m, d).

Definition year_string (y : Z) : string :=
  if (0 <=? y) && (y <=? 9999) then digits 4 y
  else (if y <? 0 then "-" else "+") +:+ digits 6 (Z.abs y).

(** The text of a valid time value [t] (milliseconds since the epoch,
    UTC): [YYYY-MM-DDTHH:mm:ss.sssZ]. *)
Definition format (t : Z) : string :=
  let '(y, m, d) := civil_from_days (t / msPerDay) in
  let ms := t mod msPerDay in
  year_string y +:+ "-" +:+ digits 2 m +:+ "-" +:+ digits 2 d +:+ "T" +:+
  digits 2 (ms / 3600000) +:+ ":" +:+ digits 2 (ms / 60000 mod 60) +:+ ":" +:+
  digits 2 (ms / 1000 mod 60) +:+ "." +:+ digits 3 (ms mod 1000) +:+ "Z".

(** [toISOString] of a date whose time value is [tv] ([None] for an
    invalid date, on which the method throws a RangeError). *)
Definition toISOString (tv : option Z) : outcome string :=
  match tv with
  | Some t =>
      if (- maxTimeValue <=? t) && (t <=? maxTimeValue) then Return (format t)
      else Throw (mkError RangeError "Invalid time value" VUndefined)
  | None => Throw (mkError RangeError "Invalid time value" VUndefined)
  end.

(** Recognizer of the two shapes [toISOString] may produce. *)
Definition is_digit (c : Ascii.ascii) : bool :=
  let n := Ascii.nat_of_ascii c in (48 <=? n)%nat && (n <=? 57)%nat.

Inductive pat : Type := D | C (c : Ascii.ascii).

Fixpoint matches (p : list pat) (s : string) : bool :=
  match p, s with
  | [], EmptyString => true
  | D :: p', String c s' => is_digit c && matches p' s'
  | C c0 :: p', String c s' => Ascii.eqb c0 c && matches p' s'
  | _, _ => false
  end.

Definition tail_pat : list pat :=
  [C "-"; D; D; C "-"; D; D; C "T"; D; D; C ":"; D; D; C ":"; D; D; C "."; D; D; D; C "Z"]%char.

Definition is_iso8601_utc (s : string) : bool :=
  matches ([D; D; D; D] ++ tail_pat) s
  || matches ([C "+"%char; D; D; D; D; D; D] ++ tail_pat) s
  || matches ([C "-"%char; D; D; D; D; D; D] ++ tail_pat) s.

(** The instant a timestamp text denotes: the reading of the format above,
    by which the meaning of a submitted [publishAt] is stated.  Day number
    of a proleptic Gregorian date first. *)
Definition days_from_civil (y m d : Z) : Z :=
  let y' := y - (if m <=? 2 then 1 else 0) in
  let era := y' / 400 in
  let yoe := y' - era * 400 in
  let doy := (153 * (if 2 <? m then m - 3 else m + 9) + 2) / 5 + d - 1 in
  let doe := yoe * 365 + yoe / 4 - yoe / 100 + doy in
  era * 146097 + doe - 719468.

Fixpoint read_digits (n : nat) (acc : Z) (s : string) : option (Z * string) :=
  match n with
  | O => Some (acc, s)
  | S n' =>
      match s with
      | String c s' =>
          if is_digit c then read_digits n' (10 * acc + (Z.of_nat (nat_of_ascii c) - 48)) s'
          else None
      | EmptyString => None
      end
  end.

Definition expect (c : ascii) (s : string) : option string :=
  match s with
  | String c' s' => if Ascii.eqb c c' then Some s' else None
  | EmptyString => None
  end.

Definition read_year (s : string) : option (Z * string) :=
  match read_digits 4 0 s with
  | Some r => Some r
  | None =>
      match s with
      | String c s' =>
          if Ascii.eqb c "+" then read_digits 6 0 s'
          else if Ascii.eqb c "-" then '(y, r) ← read_digits 6 0 s'; Some (- y, r)
          else None
      | EmptyString => None
      end
  end.

Definition time_denoted (s : string) : option Z :=
  '(y, s) ← read_year s;
  s ← expect "-" s; '(m, s) ← read_digits 2 0 s;
  s ← expect "-" s; '(d, s) ← read_digits 2 0 s;
  s ← expect "T" s; '(h, s) ← read_digits 2 0 s;
  s ← expect ":" s; '(mi, s) ← read_digits 2 0 s;
  s ← expect ":" s; '(sec, s) ← read_digits 2 0 s;
  s ← expect "." s; '(ms, s) ← read_digits 3 0 s;
  s ← expect "Z" s;
  match s with
  | EmptyString =>
      Some (days_from_civil y m d * msPerDay + h * 3600000 + mi * 60000 + sec * 1000 + ms)
  | _ => None
  end.
End ISO.

(** ** Requests, progress snapshots and observable effects *)

(** The body of a [videos.insert] request (uploader.js, lines 31-56). *)
Record Snippet : Type := mkSnippet {
  title : value;
  description : value;
  tags : value;
  categoryId : value;
  defaultLanguage : value;
  defaultAudioLanguage : value
}.

Record Status : Type := mkStatus {
  privacyStatus : value;
  embeddable : bool;
  publicStatsViewable : bool;
  selfDeclaredMadeForKids : value;
  publishAt : option string;
  commentModerationStatus : option string
}.

Record RequestMetadata : Type := mkRequest {
  snippet : Snippet;
  status : Status
}.

(** One [onUploadProgress] event, with the reading [Date.now()] gives at
    that moment. *)
Record progress_event : Type := mkEvt {
  bytesRead : number;
  now : Z
}.

Module Snapshot.
(** The object handed to [progressCallback]. *)
Record t : Type := mk {
  progress : number;
  bytesRead : number;
  bytesTotal : number;
  status : string;
  timeRemaining : string;
  speed : string
}.
End Snapshot.

(** The calls the facade makes on the API client, with their parameters. *)
Inductive api_call : Type :=
| videos_insert (part : string) (requestBody : RequestMetadata) (media_body : string)
| thumbnails_set (videoId : string) (media_body : string)
| videoCategories_list (part : string) (regionCode : string)
| playlists_list (part : string) (mine : bool) (maxResults : Z)
| playlistItems_insert (part : string) (playlistId : string) (kind : string) (videoId : string)
| channels_list (part : string) (mine : bool).

Inductive log_arg : Type :=
| LVal (v : value)
| LRequest (r : RequestMetadata)
| LError (e : error).

Inductive effect : Type :=
| console_log (msg : string) (args : list log_arg)
| console_error (msg : string) (args : list log_arg)
| createReadStream (path : string)
| api_request (c : api_call)
| progressCallback (s : Snapshot.t).

(** [res.data] of a list call: the [items] array, when there is one. *)
Record listing : Type := mkListing { items : option (list value) }.

(** Everything outside the facade: the local files with their sizes, the
    clock at the start of an upload, and what the remote service answers to
    each call (for an upload, also the progress events its transport
    fires before the answer). *)
Record world : Type := mkWorld {
  files : gmap string Z;
  Date_now : Z;
  remote_videos_insert : RequestMetadata -> string -> list progress_event * outcome value;
  remote_thumbnails_set : string -> string -> outcome value;
  remote_videoCategories_list : string -> outcome listing;
  remote_playlists_list : Z -> outcome listing;
  remote_playlistItems_insert : string -> string -> outcome value;
  remote_channels_list : outcome listing
}.

(** The instance fields set by the constructor. *)
Record instance : Type := mkInstance {
  authClient : value;
  currentUpload : value
}.

Definition constructor (authClient : value) : instance :=
  {| authClient := authClient; currentUpload := VNull |}.

(** ** The effect monad: instance state, exceptions, and a trace *)

Definition M (A : Type) : Type := instance -> outcome A * instance * list effect.

Definition run {A} (m : M A) (this : instance) : outcome A * instance * list effect := m this.
Definition result {A} (r : outcome A * instance * list effect) : outcome A := r.1.1.
Definition final {A} (r : outcome A * instance * list effect) : instance := r.1.2.
Definition trace {A} (r : outcome A * instance * list effect) : list effect := r.2.

#[global] Instance M_ret : MRet M := fun A a this => (Return a, this, []).

#[global] Instance M_bind : MBind M := fun A B f m this =>
  match m this with
  | (Return a, this', t) =>
      match f a this' with
      | (r, this'', t') => (r, this'', t ++ t')
      end
  | (Throw e, this', t) => (Throw e, this', t)
  end.

Definition throw {A} (e : error) : M A := fun this => (Throw e, this, []).

Definition emit (e : effect) : M unit := fun this => (Return tt, this, [e]).

Definition lift {A} (o : outcome A) : M A := fun this => (o, this, []).

Definition try_catch {A} (body : M A) (handler : error -> M A) : M A := fun this =>
  match body this with
  | (Return a, this', t) => (Return a, this', t)
  | (Throw e, this', t) =>
      match handler e this' with
      | (r, this'', t') => (r, this'', t ++ t')
      end
  end.

(** [for (x of l) acc = f(acc, x)] in the monad. *)
Fixpoint foldM {A B} (f : A -> B -> M A) (l : list B) (a : A) : M A :=
  match l with
  | [] => mret a
  | x :: l' => a' ← f a x; foldM f l' a'
  end.

(** Is any remote call recorded in a trace? *)
Definition is_request (e : effect) : bool :=
  match e with
  | api_request _ => true
  | _ => false
  end.

Definition requests (t : list effect) : list effect := List.filter is_request t.

Definition callbacks (t : list effect) : list Snapshot.t :=
  omap (fun e => match e with progressCallback s => Some s | _ => None end) t.

#[global] Instance outcome_ret : MRet outcome := fun A a => Return a.

#[global] Instance outcome_bind : MBind outcome := fun A B f o =>
  match o with
  | Return a => f a
  | Throw e => Throw e
  end.

(** What [getUploadQuota] returns. *)
Record quota : Type := mkQuota {
  channelId : value;
  totalVideos : value;
  quotaInfo : value
}.

(** ** A concrete runtime and world, for running the model *)

Module Sample.

(** The integer a finite number denotes when it is one. *)
Definition to_Z (x : number) : option Z :=
  match x with
  | S754_zero _ => Some 0
  | S754_finite s m e =>
      if 0 <=? e then Some (cond_Zopp s (Z.shiftl (Zpos m) e))
      else if Z.land (Zpos m) (Z.ones (- e)) =? 0
           then Some (cond_Zopp s (Z.shiftr (Zpos m) (- e)))
           else None
  | _ => None
  end.

Fixpoint nat_digits (fuel : nat) (k : Z) : string :=
  match fuel with
  | O => EmptyString
  | S fuel' =>
      (if k <? 10 then EmptyString else nat_digits fuel' (k / 10)) +:+
      String (Ascii.ascii_of_nat (48 + Z.to_nat (k mod 10))) EmptyString
  end.

Definition show_Z (k : Z) : string :=
  (if k <? 0 then "-" else EmptyString) +:+ nat_digits 400 (Z.abs k).

(** Decimal text of an integer-valued number, and of any other finite
    number to two decimals. *)
Definition show_number (x : number) : string :=
  match x with
  | S754_nan => "NaN"
  | S754_infinity s => if s then "-Infinity" else "Infinity"
  | _ =>
      match to_Z x with
      | Some k => show_Z k
      | None =>
          match to_Z (Math_round (mul x (of_Z 100))) with
          | Some k => (if k <? 0 then "-" else EmptyString) +:+
                      nat_digits 400 (Z.abs k / 100) +:+ "." +:+ ISO.digits 2 (Z.abs k)
          | None => "?"
          end
      end
  end.

(** [new Date(v)] on a number of milliseconds, and on two date
    strings. *)
Definition time_value (v : value) : option Z :=
  match v with
  | VNum n => to_Z n
  | VStr s =>
      if String.eqb s "2030-01-01T00:00:00Z" then Some 1893456000000
      else if String.eqb s "2030-06-15T12:30:00+02:00" then Some 1907749800000
      else None
  | _ => None
  end.

Definition evt (b t : Z) : progress_event := {| bytesRead := of_Z b; now := t |}.

(** A world with three local files (one of them empty), a clock that
    starts at 5000 ms, an upload transport that fires the given progress
    events, and a remote account with the given channels. *)
Definition make_world (evts : list progress_event) (channels : option (list value)) : world :=
  {| files := {[ "/videos/a.mp4" := 1000; "/videos/empty.mp4" := 0; "/img/a.png" := 2048 ]};
     Date_now := 5000;
     remote_videos_insert := fun _ _ => (evts, Return (VObj {[ "id" := VStr "vid123" ]}));
     remote_thumbnails_set := fun _ _ => Return (VObj ∅);
     remote_videoCategories_list := fun _ =>
       Return {| items := Some [VStr "c1"; VStr "c2"; VStr "c1"] |};
     remote_playlists_list := fun _ =>
       Return {| items := Some [VStr "p2"; VStr "p1"] |};
     remote_playlistItems_insert := fun _ _ => Return (VObj ∅);
     remote_channels_list := Return {| items := channels |} |}.

Definition channel : value :=
  VObj {[ "id" := VStr "UC1";
          "statistics" := VObj {[ "videoCount" := VStr "42" ]};
          "contentDetails" := VObj ∅ ]}.

(** Chunks of a 1000-byte file, 100 ms apart. *)
Definition the_world : world :=
  make_world [evt 0 5000; evt 250 5100; evt 500 5200; evt 750 5300; evt 1000 5400]
             (Some [channel]).

(** A transport that reads nothing, as for an empty file, and an account
    without a channel. *)
Definition idle_world : world := make_world [evt 0 5000; evt 0 5100] (Some []).

(** A transport that reads 1024 and then 2048 bytes. *)
Definition grown_world : world := make_world [evt 0 5000; evt 1024 5100; evt 2048 5200] None.

End Sample.

(** ** Further worlds: a remote service that fails, and one whose answers
    lack parts *)

Module Fixtures.

(** An error as the API client raises it, its [response] carrying the
    platform's error body; and a transport failure, which has none. *)
Definition quota_error : error :=
  mkError RemoteError "quotaExceeded"
    (VObj {[ "data" := VObj {[ "code" := VNum (of_Z 403) ]} ]}).

Definition network_error : error := mkError RemoteError "ECONNRESET" VUndefined.

(** Every call is rejected; an upload gets two progress events first, the
    second reporting fewer bytes than the first. *)
Definition failing_world : world :=
  {| files := files Sample.the_world;
     Date_now := 5000;
     remote_videos_insert := fun _ _ =>
       ([Sample.evt 500 5100; Sample.evt 400 5200], Throw quota_error);
     remote_thumbnails_set := fun _ _ => Throw quota_error;
     remote_videoCategories_list := fun _ => Throw network_error;
     remote_playlists_list := fun _ => Throw quota_error;
     remote_playlistItems_insert := fun _ _ => Throw quota_error;
     remote_channels_list := Throw network_error |}.

(** Listings answered without [items], and a channel without the
    [statistics] part. *)
Definition bare_world : world :=
  {| files := files Sample.the_world;
     Date_now := 5000;
     remote_videos_insert := fun _ _ => ([], Return (VObj ∅));
     remote_thumbnails_set := fun _ _ => Return (VObj {[ "kind" := VStr "youtube#thumbnailSetResponse" ]});
     remote_videoCategories_list := fun _ => Return {| items := None |};
     remote_playlists_list := fun _ => Return {| items := None |};
     remote_playlistItems_insert := fun _ _ => Return (VObj {[ "id" := VStr "item1" ]});
     remote_channels_list :=
       Return {| items := Some [VObj {[ "id" := VStr "UC1" ]}; Sample.channel] |} |}.

End Fixtures.

(** ** The facade *)

Section Uploader.

(** The runtime's conversion of a number to text inside a template
    literal, and the time value of [new Date(v)] ([None] when the date is
    invalid). *)
Variable Number_toString : number -> string.
Variable Date_timeValue : value -> option Z.

Variable w : world.

Definition existsSync (path : string) : bool := bool_decide (is_Some (files w !! path)).
Definition statSync_size (path : string) : Z := default 0 (files w !! path).

(** *** uploadVideo: the request body *)

(** Lines 31-46: the object literal. *)
Definition requestMetadata_literal (metadata : gmap string value) : RequestMetadata :=
  {| snippet :=
       {| title := JS.or (JS.prop metadata "title") (VStr "Untitled Video");
          description := JS.or (JS.prop metadata "description") (VStr EmptyString);
          tags := JS.or (JS.prop metadata "tags") (VArr []);
          categoryId := JS.or (JS.prop metadata "categoryId") (VStr "22");
          defaultLanguage := JS.or (JS.prop metadata "language") (VStr "de");
          defaultAudioLanguage := JS.or (JS.prop metadata "language") (VStr "de") |};
     status :=
       {| privacyStatus := JS.or (JS.prop metadata "privacy") (VStr "private");
          embeddable := JS.strict_ne_false (JS.prop metadata "embeddable");
          publicStatsViewable := JS.strict_ne_false (JS.prop metadata "publicStatsViewable");
          selfDeclaredMadeForKids := JS.or (JS.prop metadata "madeForKids") (VBool false);
          publishAt := None;
          commentModerationStatus := None |} |}.

Definition set_publishAt (r : RequestMetadata) (s : string) : RequestMetadata :=
  let st := status r in
  {| snippet := snippet r;
     status := {| privacyStatus := privacyStatus st;
                  embeddable := embeddable st;
                  publicStatsViewable := publicStatsViewable st;
                  selfDeclaredMadeForKids := selfDeclaredMadeForKids st;
                  publishAt := Some s;
                  commentModerationStatus := commentModerationStatus st |} |}.

Definition set_commentModerationStatus (r : RequestMetadata) (s : string) : RequestMetadata :=
  let st := status r in
  {| snippet := snippet r;
     status := {| privacyStatus := privacyStatus st;
                  embeddable := embeddable st;
                  publicStatsViewable := publicStatsViewable st;
                  selfDeclaredMadeForKids := selfDeclaredMadeForKids st;
                  publishAt := publishAt st;
                  commentModerationStatus := Some s |} |}.

(** Lines 31-56: the literal, then the scheduled-publish time, then the
    comment switch. *)
Definition requestMetadata (metadata : gmap string value) : outcome RequestMetadata :=
  r ← (if JS.truthy (JS.prop metadata "publishAt")
       then s ← ISO.toISOString (Date_timeValue (JS.prop metadata "publishAt"));
            mret (set_publishAt (requestMetadata_literal metadata) s)
       else mret (requestMetadata_literal metadata));
  own ← JS.hasOwnProperty metadata "allowComments";
  if own && negb (JS.truthy (JS.prop metadata "allowComments"))
  then mret (set_commentModerationStatus r "disabled")
  else mret r.

(** *** uploadVideo: the progress reporter (lines 74-115) *)

Definition currentProgress (fileSize : number) (evt : progress_event) : number :=
  Math_round (mul (div (bytesRead evt) fileSize) (of_Z 100)).

Definition elapsedTime (startTime : Z) (evt : progress_event) : number :=
  sub (of_Z (now evt)) (of_Z startTime).

Definition bytesPerMs (startTime : Z) (evt : progress_event) : number :=
  div (bytesRead evt) (elapsedTime startTime evt).

Definition remainingTimeMs (fileSize : number) (startTime : Z) (evt : progress_event) : number :=
  if gt (bytesPerMs startTime evt) (of_Z 0)
  then div (sub fileSize (bytesRead evt)) (bytesPerMs startTime evt)
  else of_Z 0.

Definition timeRemainingText (fileSize : number) (startTime : Z) (evt : progress_event) : string :=
  if gt (bytesPerMs startTime evt) (of_Z 0) then
    let remainingMinutes := Math_floor (div (remainingTimeMs fileSize startTime evt) (of_Z 60000)) in
    let remainingSeconds :=
      Math_floor (div (rem (remainingTimeMs fileSize startTime evt) (of_Z 60000)) (of_Z 1000)) in
    "Noch " +:+ Number_toString remainingMinutes +:+ " Min " +:+
    Number_toString remainingSeconds +:+ " Sek"
  else "Berechne...".

Definition speed_number (startTime : Z) (evt : progress_event) : number :=
  div (Math_round (mul (div (div (mul (bytesPerMs startTime evt) (of_Z 1000)) (of_Z 1024)) (of_Z 1024))
                       (of_Z 100)))
      (of_Z 100).

(** The object built for the callback once the report is due. *)
Definition make_snapshot (fileSize : number) (startTime : Z) (evt : progress_event) : Snapshot.t :=
  let p := currentProgress fileSize evt in
  let '(status, text) :=
    if ge p (of_Z 100) then ("Verarbeite Video...", "YouTube verarbeitet dein Video...")
    else if ge p (of_Z 95) then ("Fast fertig...", timeRemainingText fileSize startTime evt)
    else ("Uploading...", timeRemainingText fileSize startTime evt) in
  {| Snapshot.progress := p;
     Snapshot.bytesRead := bytesRead evt;
     Snapshot.bytesTotal := fileSize;
     Snapshot.status := status;
     Snapshot.timeRemaining := text;
     Snapshot.speed := Number_toString (speed_number startTime evt) +:+ " MB/s" |}.

(** The handler; its argument and result are [lastReportedProgress]
    before and after the event.  [has_callback] tells whether the caller
    passed a [progressCallback]. *)
Definition onUploadProgress (has_callback : bool) (fileSize : number) (startTime : Z)
    (lastReportedProgress : number) (evt : progress_event) : M number :=
  if gt (currentProgress fileSize evt) lastReportedProgress then
    (if has_callback then emit (progressCallback (make_snapshot fileSize startTime evt))
     else mret tt);;
    mret (currentProgress fileSize evt)
  else mret lastReportedProgress.

(** *** The shared catch block *)

Definition log_and_rethrow {A} (label : string) (error : error) : M A :=
  emit (console_error label [LError error]);;
  (if JS.truthy (err_response error)
   then data ← lift (JS.get (err_response error) "data");
        emit (console_error "API-Fehlerantwort:" [LVal data])
   else mret tt);;
  throw error.

(** *** uploadVideo (lines 22-127) *)

Definition uploadVideo (videoPath : string) (metadata : gmap string value)
    (has_callback : bool) : M value :=
  try_catch
    ((if negb (existsSync videoPath)
      then throw (new_Error ("Datei nicht gefunden: " +:+ videoPath))
      else mret tt);;
     let fileSize := of_Z (statSync_size videoPath) in
     request ← lift (requestMetadata metadata);
     let lastReportedProgress := of_Z 0 in
     let startTime := Date_now w in
     emit (createReadStream videoPath);;
     emit (console_log "Starte Video-Upload mit Metadaten:" [LRequest request]);;
     emit (api_request (videos_insert "snippet,status" request videoPath));;
     foldM (onUploadProgress has_callback fileSize startTime)
           (remote_videos_insert w request videoPath).1 lastReportedProgress;;
     data ← lift (remote_videos_insert w request videoPath).2;
     emit (console_log "Video erfolgreich hochgeladen:" [LVal data]);;
     mret data)
    (log_and_rethrow "Upload-Fehler:").

(** *** setThumbnail (lines 135-159) *)

Definition setThumbnail (videoId : string) (thumbnailPath : string) : M value :=
  try_catch
    ((if negb (existsSync thumbnailPath)
      then throw (new_Error ("Thumbnail-Datei nicht gefunden: " +:+ thumbnailPath))
      else mret tt);;
     emit (console_log ("Setze Thumbnail für Video " +:+ videoId +:+ ": " +:+ thumbnailPath) []);;
     emit (createReadStream thumbnailPath);;
     emit (api_request (thumbnails_set videoId thumbnailPath));;
     data ← lift (remote_thumbnails_set w videoId thumbnailPath);
     emit (console_log "Thumbnail erfolgreich gesetzt:" [LVal data]);;
     mret data)
    (log_and_rethrow "Thumbnail-Fehler:").

(** *** getVideoCategories (lines 166-184) and getMyPlaylists (190-209) *)

(** [res.data.items.length], which throws when there is no [items]. *)
Definition items_length (data : listing) : outcome number :=
  match items data with
  | Some l => Return (of_Z (Z.of_nat (length l)))
  | None => Throw (mkError TypeError "Cannot read properties of undefined (reading 'length')" VUndefined)
  end.

(** [regionCode] is [None] when the argument is left out. *)
Definition getVideoCategories (regionCode : option string) : M (option (list value)) :=
  let regionCode := default "DE" regionCode in
  try_catch
    (emit (console_log ("Lade Videokategorien für Region " +:+ regionCode) []);;
     emit (api_request (videoCategories_list "snippet" regionCode));;
     data ← lift (remote_videoCategories_list w regionCode);
     n ← lift (items_length data);
     emit (console_log (Number_toString n +:+ " Kategorien geladen") []);;
     mret (items data))
    (log_and_rethrow "Fehler beim Laden der Kategorien:").

Definition getMyPlaylists : M (option (list value)) :=
  try_catch
    (emit (console_log "Lade Playlists..." []);;
     emit (api_request (playlists_list "snippet" true 50));;
     data ← lift (remote_playlists_list w 50);
     n ← lift (items_length data);
     emit (console_log (Number_toString n +:+ " Playlists geladen") []);;
     mret (items data))
    (log_and_rethrow "Fehler beim Laden der Playlists:").

(** *** addVideoToPlaylist (lines 217-243) *)

Definition addVideoToPlaylist (videoId playlistId : string) : M value :=
  try_catch
    (emit (console_log ("Füge Video " +:+ videoId +:+ " zu Playlist " +:+ playlistId +:+ " hinzu") []);;
     emit (api_request (playlistItems_insert "snippet" playlistId "youtube#video" videoId));;
     data ← lift (remote_playlistItems_insert w playlistId videoId);
     emit (console_log "Video erfolgreich zur Playlist hinzugefügt:" [LVal data]);;
     mret data)
    (log_and_rethrow "Fehler beim Hinzufügen zur Playlist:").

(** *** getUploadQuota (lines 249-276) *)

(** Lines 261-265: the returned object literal, its properties read in
    source order. *)
Definition quota_literal (channel : value) : outcome quota :=
  id ← JS.get channel "id";
  statistics ← JS.get channel "statistics";
  videoCount ← JS.get statistics "videoCount";
  contentDetails ← JS.get channel "contentDetails";
  contentRatings ← JS.get contentDetails "contentRatings";
  mret {| channelId := id; totalVideos := videoCount; quotaInfo := contentRatings |}.

Definition getUploadQuota : M quota :=
  try_catch
    (emit (console_log "Lade Upload-Quota..." []);;
     emit (api_request (channels_list "contentDetails,statistics" true));;
     data ← lift (remote_channels_list w);
     match items data with
     | Some (channel :: _) =>
         emit (console_log "Quota-Infos geladen:" [LVal channel]);;
         lift (quota_literal channel)
     | _ => throw (new_Error "Kein Kanal gefunden")
     end)
    (log_and_rethrow "Fehler beim Laden der Upload-Quota:").

End Uploader.


(** ** Views of the model used to state its properties *)

Section Views.

Variable Number_toString : number -> string.

(** The snapshots a sequence of progress events gives rise to, following
    the specification's words: one snapshot each time the integer
    percentage is strictly greater than the last reported one. *)
Fixpoint emitted_snapshots (fileSize : number) (startTime : Z) (last : number)
    (evts : list progress_event) : list Snapshot.t :=
  match evts with
  | [] => []
  | evt :: evts' =>
      if gt (currentProgress fileSize evt) last
      then make_snapshot Number_toString fileSize startTime evt
           :: emitted_snapshots fileSize startTime (currentProgress fileSize evt) evts'
      else emitted_snapshots fileSize startTime last evts'
  end.

(** [lastReportedProgress] once the events are through. *)
Fixpoint last_reported (fileSize : number) (last : number) (evts : list progress_event) : number :=
  match evts with
  | [] => last
  | evt :: evts' =>
      last_reported fileSize
        (if gt (currentProgress fileSize evt) last then currentProgress fileSize evt else last) evts'
  end.

(** What the shared catch block writes for an error. *)
Definition catch_trace (label : string) (e : error) : list effect :=
  console_error label [LError e]
  :: (if JS.truthy (err_response e)
      then match JS.get (err_response e) "data" with
           | Return data => [console_error "API-Fehlerantwort:" [LVal data]]
           | Throw _ => []
           end
      else []).

Variable w : world.

(** The effects of an upload up to the remote answer. *)
Definition upload_head (path : string) (size : Z) (req : RequestMetadata)
    (has_callback : bool) : list effect :=
  [createReadStream path;
   console_log "Starte Video-Upload mit Metadaten:" [LRequest req];
   api_request (videos_insert "snippet,status" req path)]
  ++ (if has_callback
      then map progressCallback
             (emitted_snapshots (of_Z size) (Date_now w) (of_Z 0)
                (remote_videos_insert w req path).1)
      else []).

End Views.

(** The metadata keys whose absence the literal answers with a default. *)
Definition defaulted_keys : list string :=
  ["title"; "description"; "tags"; "categoryId"; "language"; "privacy";
   "embeddable"; "publicStatsViewable"; "madeForKids"].

(** The scheduled-publish time, when the metadata supplies one, denotes a
    date: [new Date(publishAt)] has a time value. *)
Definition publishAt_valid (Date_timeValue : value -> option Z) (md : gmap string value) : Prop :=
  JS.truthy (JS.prop md "publishAt") = true ->
  exists t, Date_timeValue (JS.prop md "publishAt") = Some t
            /\ - ISO.maxTimeValue <= t <= ISO.maxTimeValue.

(** Strictly increasing, in the sense of the [<] of numbers. *)
Definition strictly_increasing (l : list number) : Prop :=
  StronglySorted (fun a b => lt a b = true) l.

(** ** Order facts about numbers *)

Section NumberOrder.

Ltac cmp_cases :=
  repeat match goal with
  | |- context [Pos.compare_cont Eq ?a ?b] =>
      change (Pos.compare_cont Eq a b) with (Pos.compare a b)
  | H : context [Pos.compare_cont Eq ?a ?b] |- _ =>
      change (Pos.compare_cont Eq a b) with (Pos.compare a b) in H
  end;
  repeat match goal with
  | H : context [Z.compare ?a ?b] |- _ =>
      destruct (Z.compare_spec a b); simpl in H; try discriminate H
  | H : context [Pos.compare ?a ?b] |- _ =>
      destruct (Pos.compare_spec a b); simpl in H; try discriminate H
  | |- context [Z.compare ?a ?b] => destruct (Z.compare_spec a b); simpl
  | |- context [Pos.compare ?a ?b] => destruct (Pos.compare_spec a b); simpl
  end;
  try reflexivity; try discriminate; try lia.

Ltac by_classes x y z :=
  destruct x as [[]|[]| |[] ? ?], y as [[]|[]| |[] ? ?], z as [[]|[]| |[] ? ?];
  simpl; intros; try discriminate; try reflexivity;
  repeat match goal with H : Some _ = Some _ |- _ => injection H as H end;
  try f_equal; cmp_cases.

Lemma SFcompare_trans (x y z : number) (c : comparison) :
  SFcompare x y = Some c -> SFcompare y z = Some c -> SFcompare x z = Some c.
Proof. destruct c; revert x y z; intros x y z; by_classes x y z. Qed.

Lemma SFcompare_Eq_l (x y z : number) (c : comparison) :
  SFcompare x y = Some Eq -> SFcompare y z = Some c -> SFcompare x z = Some c.
Proof. destruct c; revert x y z; intros x y z; by_classes x y z. Qed.

Lemma SFcompare_Eq_r (x y z : number) (c : comparison) :
  SFcompare x y = Some c -> SFcompare y z = Some Eq -> SFcompare x z = Some c.
Proof. destruct c; revert x y z; intros x y z; by_classes x y z. Qed.

Lemma SFcompare_swap (x y : number) :
  SFcompare y x = CompOpp <$> SFcompare x y.
Proof.
  destruct x as [[]|[]| |[] mx ex], y as [[]|[]| |[] my ey]; simpl; try reflexivity;
    f_equal;
    change (Pos.compare_cont Eq my mx) with (Pos.compare my mx);
    change (Pos.compare_cont Eq mx my) with (Pos.compare mx my);
    rewrite (Z.compare_antisym ex ey), (Pos.compare_antisym mx my);
    destruct (ex ?= ey), (mx ?= my)%positive; reflexivity.
Qed.

Lemma lt_irrefl (x : number) : lt x x = false.
Proof.
  unfold lt, SFltb. destruct (SFcompare x x) as [[]|] eqn:E; try reflexivity.
  pose proof (SFcompare_swap x x) as H. rewrite E in H. discriminate H.
Qed.

Lemma lt_trans (x y z : number) : lt x y = true -> lt y z = true -> lt x z = true.
Proof.
  unfold lt, SFltb.
  destruct (SFcompare x y) as [[]|] eqn:E1; try discriminate.
  destruct (SFcompare y z) as [[]|] eqn:E2; try discriminate.
  now rewrite (SFcompare_trans _ _ _ _ E1 E2).
Qed.

(** [x < y] excludes [x >= y]. *)
Lemma lt_not_ge (x y : number) : lt x y = true -> ge x y = false.
Proof.
  unfold lt, ge, SFltb, SFleb. rewrite (SFcompare_swap x y).
  destruct (SFcompare x y) as [[]|]; simpl; intros; congruence.
Qed.

(** Unless NaN is involved, one of [x < y] and [x >= y] holds. *)
Lemma lt_or_ge (x y : number) : x <> NaN -> y <> NaN -> lt x y = true \/ ge x y = true.
Proof.
  unfold lt, ge, SFltb, SFleb. rewrite (SFcompare_swap x y).
  destruct x as [[]|[]| |[] ? ?], y as [[]|[]| |[] ? ?]; simpl; intros; try congruence; auto;
    destruct (_ ?= _); simpl; auto;
    destruct (Pos.compare_cont _ _ _); simpl; auto.
Qed.

Lemma ge_trans (x y z : number) : ge x y = true -> ge y z = true -> ge x z = true.
Proof.
  unfold ge, SFleb.
  destruct (SFcompare y x) as [[]|] eqn:E1; try discriminate;
  destruct (SFcompare z y) as [[]|] eqn:E2; try discriminate; intros _ _.
  - now rewrite (SFcompare_trans _ _ _ _ E2 E1).
  - now rewrite (SFcompare_Eq_r _ _ _ _ E2 E1).
  - now rewrite (SFcompare_Eq_l _ _ _ _ E2 E1).
  - now rewrite (SFcompare_trans _ _ _ _ E2 E1).
Qed.

Lemma gt_not_NaN (x y : number) : gt x y = true -> x <> NaN.
Proof. intros H ->. unfold gt, SFltb in H. destruct y; discriminate. Qed.

End NumberOrder.

(** ** How the operations run *)

Section Runs.

Variable Number_toString : number -> string.
Variable Date_timeValue : value -> option Z.
Variable w : world.

Lemma existsSync_true (path : string) (size : Z) :
  files w !! path = Some size -> existsSync w path = true /\ statSync_size w path = size.
Proof.
  intros H. unfold existsSync, statSync_size. rewrite H. split; [|reflexivity].
  apply bool_decide_eq_true. eauto.
Qed.

Lemma existsSync_false (path : string) :
  files w !! path = None -> existsSync w path = false.
Proof.
  intros H. unfold existsSync. rewrite H.
  apply bool_decide_eq_false. intros [x Hx]. discriminate Hx.
Qed.

Lemma log_and_rethrow_run {A} (label : string) (e : error) (this : instance) :
  log_and_rethrow (A := A) label e this = (Throw e, this, catch_trace label e).
Proof.
  unfold log_and_rethrow, catch_trace, mbind, M_bind, emit, throw, lift, mret, M_ret.
  destruct e as [k msg resp]; simpl.
  destruct resp as [| |[]|[[]|[]| |[] m ex]|s|l|o]; simpl; try reflexivity.
  destruct (negb (String.eqb s EmptyString)); reflexivity.
Qed.

(** The handler never throws and never touches the instance; what it
    hands to the callback is [emitted_snapshots]. *)
Lemma foldM_onUploadProgress (has_callback : bool) (fileSize : number) (startTime : Z)
    (evts : list progress_event) (last : number) (this : instance) :
  foldM (onUploadProgress Number_toString has_callback fileSize startTime) evts last this =
  (Return (last_reported fileSize last evts), this,
   if has_callback
   then map progressCallback (emitted_snapshots Number_toString fileSize startTime last evts)
   else []).
Proof.
  revert last. induction evts as [|evt evts IH]; intros last; simpl.
  - destruct has_callback; reflexivity.
  - unfold mbind, M_bind, onUploadProgress.
    destruct (gt (currentProgress fileSize evt) last); destruct has_callback;
      unfold mbind, M_bind, emit, mret, M_ret; simpl; rewrite IH; reflexivity.
Qed.

Lemma uploadVideo_run (path : string) (md : gmap string value) (has_callback : bool)
    (this : instance) (size : Z) (req : RequestMetadata) :
  files w !! path = Some size ->
  requestMetadata Date_timeValue md = Return req ->
  run (uploadVideo Number_toString Date_timeValue w path md has_callback) this =
  match (remote_videos_insert w req path).2 with
  | Return data =>
      (Return data, this,
       upload_head Number_toString w path size req has_callback
       ++ [console_log "Video erfolgreich hochgeladen:" [LVal data]])
  | Throw e =>
      (Throw e, this, upload_head Number_toString w path size req has_callback ++ catch_trace "Upload-Fehler:" e)
  end.
Proof.
  intros Hf Hr. destruct (existsSync_true _ _ Hf) as [Hex Hsz].
  unfold run, uploadVideo, try_catch, upload_head.
  unfold mbind at 1. unfold M_bind at 1. rewrite Hex. simpl negb. cbv iota.
  unfold mret at 1. unfold M_ret at 1.
  unfold mbind at 1. unfold M_bind at 1. unfold lift at 1. rewrite Hr.
  unfold mbind, M_bind, emit, lift, mret, M_ret. cbn [negb]. cbv beta iota zeta.
  rewrite foldM_onUploadProgress, Hsz.
  destruct (remote_videos_insert w req path).2 as [data|e]; simpl.
  - reflexivity.
  - rewrite log_and_rethrow_run. rewrite app_nil_r. reflexivity.
Qed.

Lemma uploadVideo_missing (path : string) (md : gmap string value) (has_callback : bool)
    (this : instance) :
  files w !! path = None ->
  run (uploadVideo Number_toString Date_timeValue w path md has_callback) this =
  (Throw (new_Error ("Datei nicht gefunden: " +:+ path)), this,
   [console_error "Upload-Fehler:" [LError (new_Error ("Datei nicht gefunden: " +:+ path))]]).
Proof.
  intros Hf. unfold run, uploadVideo, try_catch.
  unfold mbind at 1. unfold M_bind at 1. rewrite (existsSync_false _ Hf).
  cbn [negb]. unfold throw at 1. cbv beta iota zeta.
  rewrite log_and_rethrow_run. reflexivity.
Qed.

Lemma uploadVideo_bad_request (path : string) (md : gmap string value) (has_callback : bool)
    (this : instance) (size : Z) (e : error) :
  files w !! path = Some size ->
  requestMetadata Date_timeValue md = Throw e ->
  run (uploadVideo Number_toString Date_timeValue w path md has_callback) this =
  (Throw e, this, catch_trace "Upload-Fehler:" e).
Proof.
  intros Hf Hr. destruct (existsSync_true _ _ Hf) as [Hex Hsz].
  unfold run, uploadVideo, try_catch.
  unfold mbind at 1. unfold M_bind at 1. rewrite Hex. simpl negb. cbv iota.
  unfold mret at 1. unfold M_ret at 1.
  unfold mbind at 1. unfold M_bind at 1. unfold lift at 1. rewrite Hr.
  cbn [negb]. cbv beta iota zeta. rewrite log_and_rethrow_run. reflexivity.
Qed.

Lemma callbacks_app (t1 t2 : list effect) : callbacks (t1 ++ t2) = callbacks t1 ++ callbacks t2.
Proof. apply omap_app. Qed.

Lemma callbacks_progress (l : list Snapshot.t) : callbacks (map progressCallback l) = l.
Proof. induction l as [|x l IH]; simpl; [reflexivity|]. unfold callbacks in *. simpl. now rewrite IH. Qed.

Lemma callbacks_catch_trace (label : string) (e : error) : callbacks (catch_trace label e) = [].
Proof.
  unfold catch_trace. destruct (JS.truthy (err_response e)); [|reflexivity].
  destruct (JS.get (err_response e) "data"); reflexivity.
Qed.

Lemma requests_catch_trace (label : string) (e : error) : requests (catch_trace label e) = [].
Proof.
  unfold catch_trace. destruct (JS.truthy (err_response e)); [|reflexivity].
  destruct (JS.get (err_response e) "data"); reflexivity.
Qed.

(** The snapshots a whole upload hands to the callback. *)
Lemma uploadVideo_callbacks (path : string) (md : gmap string value) (has_callback : bool)
    (this : instance) (size : Z) (req : RequestMetadata) :
  files w !! path = Some size ->
  requestMetadata Date_timeValue md = Return req ->
  callbacks (trace (run (uploadVideo Number_toString Date_timeValue w path md has_callback) this)) =
  if has_callback
  then emitted_snapshots Number_toString (of_Z size) (Date_now w) (of_Z 0)
         (remote_videos_insert w req path).1
  else [].
Proof.
  intros Hf Hr. rewrite (uploadVideo_run _ _ _ _ _ _ Hf Hr).
  destruct (remote_videos_insert w req path).2 as [data|e]; unfold trace; cbn [snd];
    unfold upload_head; rewrite !callbacks_app, ?callbacks_catch_trace;
    destruct has_callback; rewrite ?callbacks_progress; cbn; rewrite ?app_nil_r; reflexivity.
Qed.

End Runs.


(** ** The progress reporter *)

Section Progress.

Variable Number_toString : number -> string.

Lemma progress_make_snapshot (fileSize : number) (startTime : Z) (evt : progress_event) :
  Snapshot.progress (make_snapshot Number_toString fileSize startTime evt) =
  currentProgress fileSize evt.
Proof.
  unfold make_snapshot.
  destruct (ge _ (of_Z 100)); [reflexivity|]. destruct (ge _ (of_Z 95)); reflexivity.
Qed.

(** Every reported percentage exceeds the value the reporter started
    from, and the reported percentages increase strictly. *)
Lemma emitted_snapshots_sorted (fileSize : number) (startTime : Z)
    (evts : list progress_event) (last : number) :
  Forall (fun p => lt last p = true)
    (map Snapshot.progress (emitted_snapshots Number_toString fileSize startTime last evts))
  /\ strictly_increasing
    (map Snapshot.progress (emitted_snapshots Number_toString fileSize startTime last evts)).
Proof.
  revert last. induction evts as [|evt evts IH]; intros last; simpl.
  - split; constructor.
  - destruct (gt (currentProgress fileSize evt) last) eqn:Hgt.
    + destruct (IH (currentProgress fileSize evt)) as [Hall Hsorted].
      simpl. rewrite progress_make_snapshot. split.
      * constructor; [exact Hgt|].
        eapply Forall_impl; [exact Hall|]. intros p Hp. simpl in Hp.
        exact (lt_trans _ _ _ Hgt Hp).
      * constructor; assumption.
    + apply IH.
Qed.

Lemma strictly_increasing_NoDup (l : list number) : strictly_increasing l -> NoDup l.
Proof.
  induction 1 as [|x l Hs IH Hall]; constructor; [|exact IH].
  intros Hin. rewrite Forall_forall in Hall.
  specialize (Hall x Hin). rewrite lt_irrefl in Hall. discriminate Hall.
Qed.

(** Each reported snapshot is the one built for some progress event. *)
Lemma emitted_snapshots_elem (fileSize : number) (startTime : Z)
    (evts : list progress_event) (last : number) (s : Snapshot.t) :
  s ∈ emitted_snapshots Number_toString fileSize startTime last evts ->
  exists evt, evt ∈ evts /\ s = make_snapshot Number_toString fileSize startTime evt
              /\ currentProgress fileSize evt <> NaN.
Proof.
  revert last. induction evts as [|evt evts IH]; intros last; simpl.
  - intros H. inversion H.
  - destruct (gt (currentProgress fileSize evt) last) eqn:Hgt.
    + intros [->|H]%elem_of_cons.
      * exists evt. split; [left|]. split; [reflexivity|]. exact (gt_not_NaN _ _ Hgt).
      * destruct (IH _ H) as (e & He & Hs). exists e. split; [now right|exact Hs].
    + intros H. destruct (IH _ H) as (e & He & Hs). exists e. split; [now right|exact Hs].
Qed.

End Progress.

(** ** Properties of uploadVideo and setThumbnail *)

Section Upload.

Variable Number_toString : number -> string.
Variable Date_timeValue : value -> option Z.
Variable w : world.

Lemma uploadVideo_callbacks_cases (path : string) (md : gmap string value)
    (has_callback : bool) (this : instance) :
  callbacks (trace (run (uploadVideo Number_toString Date_timeValue w path md has_callback) this)) = []
  \/ exists size req,
      files w !! path = Some size /\ requestMetadata Date_timeValue md = Return req /\
      callbacks (trace (run (uploadVideo Number_toString Date_timeValue w path md has_callback) this)) =
      emitted_snapshots Number_toString (of_Z size) (Date_now w) (of_Z 0)
        (remote_videos_insert w req path).1.
Proof.
  destruct (files w !! path) as [size|] eqn:Hf.
  - destruct (requestMetadata Date_timeValue md) as [req|e] eqn:Hr.
    + destruct has_callback.
      * right. exists size, req. split; [reflexivity|]. split; [reflexivity|].
        now rewrite (uploadVideo_callbacks _ _ _ _ _ _ _ _ _ Hf Hr).
      * left. now rewrite (uploadVideo_callbacks _ _ _ _ _ _ _ _ _ Hf Hr).
    + left. rewrite (uploadVideo_bad_request _ _ _ _ _ _ _ _ _ Hf Hr).
      apply callbacks_catch_trace.
  - left. now rewrite (uploadVideo_missing _ _ _ _ _ _ _ Hf).
Qed.

(** C2: over a whole upload, whatever the progress events, the
    percentages handed to the progress callback increase strictly (so none
    is reported twice and none out of order); the handler reports exactly
    when the new rounded percentage is strictly greater than the last
    reported one, which it then replaces. *)
Theorem uploadVideo_progress_strictly_increasing (path : string) (md : gmap string value)
    (has_callback : bool) (this : instance) :
  let reported :=
    map Snapshot.progress
      (callbacks (trace (run (uploadVideo Number_toString Date_timeValue w path md has_callback) this))) in
  strictly_increasing reported
  /\ NoDup reported
  /\ forall (fileSize : number) (startTime : Z) (last : number) (evt : progress_event)
       (this' : instance),
      run (onUploadProgress Number_toString has_callback fileSize startTime last evt) this' =
      if gt (Math_round (mul (div (bytesRead evt) fileSize) (of_Z 100))) last
      then (Return (Math_round (mul (div (bytesRead evt) fileSize) (of_Z 100))), this',
            if has_callback
            then [progressCallback (make_snapshot Number_toString fileSize startTime evt)]
            else [])
      else (Return last, this', []).
Proof.
  intros reported.
  assert (Hs : strictly_increasing reported).
  { subst reported.
    destruct (uploadVideo_callbacks_cases path md has_callback this) as [->|(size & req & _ & _ & ->)].
    - constructor.
    - apply emitted_snapshots_sorted. }
  split; [exact Hs|]. split; [exact (strictly_increasing_NoDup _ Hs)|].
  intros fileSize startTime last evt this'.
  unfold run, onUploadProgress, currentProgress.
  destruct (gt _ last); [|reflexivity].
  destruct has_callback; reflexivity.
Qed.

(** With a total size of 0, an event that reports no positive byte count
    computes NaN or -Infinity, never more than 0. *)
Lemma currentProgress_zero_size (evt : progress_event) :
  gt (bytesRead evt) (of_Z 0) = false ->
  gt (currentProgress (of_Z 0) evt) (of_Z 0) = false.
Proof.
  unfold currentProgress. destruct (bytesRead evt) as [[]|[]| |[] m e]; intros H;
    try reflexivity; discriminate H.
Qed.

Lemma emitted_snapshots_zero_size (startTime : Z) (evts : list progress_event) :
  Forall (fun evt => gt (bytesRead evt) (of_Z 0) = false) evts ->
  emitted_snapshots Number_toString (of_Z 0) startTime (of_Z 0) evts = [].
Proof.
  induction 1 as [|evt evts Hevt _ IH]; cbn [emitted_snapshots]; [reflexivity|].
  now rewrite (currentProgress_zero_size _ Hevt).
Qed.

(** C10 (amended): for an existing file of size 0, no progress callback
    is made over the whole upload when no event reports a positive number
    of bytes read: 0/0 (times 100, rounded) is NaN, which is never greater
    than the last reported value. *)
Theorem uploadVideo_zero_size_no_callback (path : string) (md : gmap string value)
    (has_callback : bool) (this : instance) :
  files w !! path = Some 0 ->
  (forall req, Forall (fun evt => gt (bytesRead evt) (of_Z 0) = false)
                 (remote_videos_insert w req path).1) ->
  callbacks (trace (run (uploadVideo Number_toString Date_timeValue w path md has_callback) this)) = [].
Proof.
  intros Hf Hevts.
  destruct (uploadVideo_callbacks_cases path md has_callback this)
    as [H|(size & req & Hf' & _ & ->)]; [exact H|].
  rewrite Hf in Hf'. injection Hf' as <-.
  apply emitted_snapshots_zero_size, Hevts.
Qed.

(** C4: when the path names no existing local file, [uploadVideo] (video
    path) and [setThumbnail] (image path) fail with their not-found error,
    having issued no request to the remote service and opened no stream:
    the only effect is the catch block's console output. *)
Theorem missing_file_fails_before_any_request (path : string) :
  files w !! path = None ->
  (forall (md : gmap string value) (has_callback : bool) (this : instance),
      let r := run (uploadVideo Number_toString Date_timeValue w path md has_callback) this in
      result r = Throw (new_Error ("Datei nicht gefunden: " +:+ path))
      /\ requests (trace r) = []
      /\ trace r = [console_error "Upload-Fehler:"
                      [LError (new_Error ("Datei nicht gefunden: " +:+ path))]])
  /\ (forall (videoId : string) (this : instance),
      let r := run (setThumbnail w videoId path) this in
      result r = Throw (new_Error ("Thumbnail-Datei nicht gefunden: " +:+ path))
      /\ requests (trace r) = []
      /\ trace r = [console_error "Thumbnail-Fehler:"
                      [LError (new_Error ("Thumbnail-Datei nicht gefunden: " +:+ path))]]).
Proof.
  intros Hf. split.
  - intros md has_callback this r. subst r.
    rewrite (uploadVideo_missing _ _ _ _ _ _ _ Hf). repeat split.
  - intros videoId this r. subst r.
    unfold run, setThumbnail, try_catch.
    unfold mbind at 1. unfold M_bind at 1. rewrite (existsSync_false _ _ Hf).
    cbn [negb]. unfold throw at 1. cbv beta iota zeta.
    rewrite log_and_rethrow_run. repeat split.
Qed.

(** C9, as the code has it: an upload leaves the instance as it found
    it, so [currentUpload], which the constructor sets to [null], is still
    [null] when the upload ends, however it ends; and it is [null] while the
    upload is in flight, the progress handler leaving the instance alone at
    every event. *)
Theorem uploadVideo_leaves_currentUpload_null (authClient : value) (path : string)
    (md : gmap string value) (has_callback : bool) :
  let r := run (uploadVideo Number_toString Date_timeValue w path md has_callback)
               (constructor authClient) in
  final r = constructor authClient
  /\ currentUpload (final r) = VNull
  /\ forall (fileSize : number) (startTime : Z) (evts : list progress_event) (last : number),
      currentUpload
        (final (run (foldM (onUploadProgress Number_toString has_callback fileSize startTime)
                       evts last) (constructor authClient))) = VNull.
Proof.
  intros r. cut (final r = constructor authClient).
  { intros H. split; [exact H|]. split; [now rewrite H|].
    intros fileSize startTime evts last. unfold run. now rewrite foldM_onUploadProgress. }
  assert (H : final r = constructor authClient).
  { subst r. destruct (files w !! path) as [size|] eqn:Hf.
    - destruct (requestMetadata Date_timeValue md) as [req|e] eqn:Hr.
      + rewrite (uploadVideo_run _ _ _ _ _ _ _ _ _ Hf Hr).
        destruct (remote_videos_insert w req path).2; reflexivity.
      + now rewrite (uploadVideo_bad_request _ _ _ _ _ _ _ _ _ Hf Hr).
    - now rewrite (uploadVideo_missing _ _ _ _ _ _ _ Hf). }
  exact H.
Qed.

End Upload.

(** ** The fields of a progress snapshot *)

Section SnapshotFields.

Variable Number_toString : number -> string.
Variable Date_timeValue : value -> option Z.
Variable w : world.

Lemma of_Z_100_not_NaN : of_Z 100 <> NaN.
Proof. discriminate. Qed.

Lemma of_Z_95_not_NaN : of_Z 95 <> NaN.
Proof. discriminate. Qed.

(** The three status labels, by range of the percentage. *)
Lemma make_snapshot_status (fileSize : number) (startTime : Z) (evt : progress_event) :
  let p := currentProgress fileSize evt in
  let s := make_snapshot Number_toString fileSize startTime evt in
  p <> NaN ->
  (lt p (of_Z 95) = true /\ Snapshot.status s = "Uploading...")
  \/ (ge p (of_Z 95) = true /\ lt p (of_Z 100) = true /\ Snapshot.status s = "Fast fertig...")
  \/ (ge p (of_Z 100) = true /\ Snapshot.status s = "Verarbeite Video...").
Proof.
  intros p s Hp. subst s. unfold make_snapshot. fold p.
  destruct (ge p (of_Z 100)) eqn:H100.
  - right. right. split; reflexivity.
  - destruct (lt_or_ge p (of_Z 100) Hp of_Z_100_not_NaN) as [Hlt|Hge]; [|congruence].
    destruct (ge p (of_Z 95)) eqn:H95.
    + right. left. repeat split. exact Hlt.
    + destruct (lt_or_ge p (of_Z 95) Hp of_Z_95_not_NaN) as [Hlt'|Hge']; [|congruence].
      left. split; [exact Hlt'|reflexivity].
Qed.

(** The remaining-time text. *)
Lemma make_snapshot_timeRemaining (fileSize : number) (startTime : Z) (evt : progress_event) :
  let p := currentProgress fileSize evt in
  let s := make_snapshot Number_toString fileSize startTime evt in
  let throughput := div (bytesRead evt) (sub (of_Z (now evt)) (of_Z startTime)) in
  let remaining := div (sub fileSize (bytesRead evt)) throughput in
  (ge p (of_Z 100) = true ->
   Snapshot.timeRemaining s = "YouTube verarbeitet dein Video...")
  /\ (lt p (of_Z 100) = true ->
      (Snapshot.timeRemaining s = "Berechne..." <-> gt throughput (of_Z 0) = false)
      /\ (gt throughput (of_Z 0) = true ->
          Snapshot.timeRemaining s =
          "Noch " +:+ Number_toString (Math_floor (div remaining (of_Z 60000))) +:+ " Min " +:+
          Number_toString (Math_floor (div (rem remaining (of_Z 60000)) (of_Z 1000))) +:+ " Sek")).
Proof.
  intros p s throughput remaining. subst s. unfold make_snapshot. fold p. split.
  - intros ->. reflexivity.
  - intros Hlt. rewrite (lt_not_ge _ _ Hlt).
    assert (Ht : Snapshot.timeRemaining
                   (let '(status, text) :=
                      if ge p (of_Z 95)
                      then ("Fast fertig...", timeRemainingText Number_toString fileSize startTime evt)
                      else ("Uploading...", timeRemainingText Number_toString fileSize startTime evt) in
                    {| Snapshot.progress := p;
                       Snapshot.bytesRead := bytesRead evt;
                       Snapshot.bytesTotal := fileSize;
                       Snapshot.status := status;
                       Snapshot.timeRemaining := text;
                       Snapshot.speed := Number_toString (speed_number startTime evt) +:+ " MB/s" |})
                 = timeRemainingText Number_toString fileSize startTime evt).
    { destruct (ge p (of_Z 95)); reflexivity. }
    rewrite Ht. unfold timeRemainingText, remainingTimeMs, bytesPerMs, elapsedTime.
    fold throughput. destruct (gt throughput (of_Z 0)).
    + split; [|reflexivity]. split; [|discriminate].
      cbn [String.append]. discriminate.
    + split; [|discriminate]. split; reflexivity.
Qed.

Lemma make_snapshot_speed (fileSize : number) (startTime : Z) (evt : progress_event) :
  let throughput := div (bytesRead evt) (sub (of_Z (now evt)) (of_Z startTime)) in
  Snapshot.speed (make_snapshot Number_toString fileSize startTime evt) =
  Number_toString
    (div (Math_round (mul (div (div (mul throughput (of_Z 1000)) (of_Z 1024)) (of_Z 1024)) (of_Z 100)))
         (of_Z 100)) +:+ " MB/s"
  /\ Snapshot.bytesRead (make_snapshot Number_toString fileSize startTime evt) = bytesRead evt
  /\ Snapshot.bytesTotal (make_snapshot Number_toString fileSize startTime evt) = fileSize.
Proof.
  unfold make_snapshot.
  destruct (ge _ (of_Z 100)); [repeat split|]. destruct (ge _ (of_Z 95)); repeat split.
Qed.

(** C3: every snapshot handed to the progress callback during an upload
    is the one computed from some progress event (bytes read b at clock
    reading now) and the file size S: its percentage is round(b / S * 100);
    its status label is the uploading label below 95, the almost-done label
    from 95 to below 100, the processing label from 100; its remaining-time
    text is the platform-processing message from 100 and otherwise the
    calculating text exactly when the throughput b / t is not positive, and
    else the minutes and seconds of (S - b) / (b / t); its speed is b / t
    in megabytes per second, rounded to two decimals. *)
Theorem uploadVideo_snapshot_fields (path : string) (md : gmap string value)
    (has_callback : bool) (this : instance) (size : Z) (req : RequestMetadata)
    (s : Snapshot.t) :
  files w !! path = Some size ->
  requestMetadata Date_timeValue md = Return req ->
  s ∈ callbacks (trace (run (uploadVideo Number_toString Date_timeValue w path md has_callback) this)) ->
  exists evt, evt ∈ (remote_videos_insert w req path).1 /\
    let S := of_Z size in
    let b := bytesRead evt in
    let t := sub (of_Z (now evt)) (of_Z (Date_now w)) in
    let p := Math_round (mul (div b S) (of_Z 100)) in
    let throughput := div b t in
    let remaining := div (sub S b) throughput in
    Snapshot.progress s = p /\ Snapshot.bytesRead s = b /\ Snapshot.bytesTotal s = S
    /\ ((lt p (of_Z 95) = true /\ Snapshot.status s = "Uploading...")
        \/ (ge p (of_Z 95) = true /\ lt p (of_Z 100) = true /\ Snapshot.status s = "Fast fertig...")
        \/ (ge p (of_Z 100) = true /\ Snapshot.status s = "Verarbeite Video..."))
    /\ (ge p (of_Z 100) = true ->
        Snapshot.timeRemaining s = "YouTube verarbeitet dein Video...")
    /\ (lt p (of_Z 100) = true ->
        (Snapshot.timeRemaining s = "Berechne..." <-> gt throughput (of_Z 0) = false)
        /\ (gt throughput (of_Z 0) = true ->
            Snapshot.timeRemaining s =
            "Noch " +:+ Number_toString (Math_floor (div remaining (of_Z 60000))) +:+ " Min " +:+
            Number_toString (Math_floor (div (rem remaining (of_Z 60000)) (of_Z 1000))) +:+ " Sek"))
    /\ Snapshot.speed s =
       Number_toString
         (div (Math_round (mul (div (div (mul throughput (of_Z 1000)) (of_Z 1024)) (of_Z 1024))
                               (of_Z 100)))
              (of_Z 100)) +:+ " MB/s".
Proof.
  intros Hf Hr Hs. rewrite (uploadVideo_callbacks _ _ _ _ _ _ _ _ _ Hf Hr) in Hs.
  destruct has_callback; [|inversion Hs].
  destruct (emitted_snapshots_elem _ _ _ _ _ _ Hs) as (evt & Hevt & -> & Hp).
  exists evt. split; [exact Hevt|]. cbv zeta.
  destruct (make_snapshot_speed (of_Z size) (Date_now w) evt) as (Hspeed & Hb & Htotal).
  destruct (make_snapshot_timeRemaining (of_Z size) (Date_now w) evt) as (Hdone & Hrun).
  split; [apply progress_make_snapshot|]. split; [exact Hb|]. split; [exact Htotal|].
  split; [exact (make_snapshot_status (of_Z size) (Date_now w) evt Hp)|].
  split; [exact Hdone|]. split; [exact Hrun|exact Hspeed].
Qed.

End SnapshotFields.

(** ** The text of a date *)

Section ISOShape.

Lemma append_cons (x : ascii) (a b : string) : String x a +:+ b = String x (a +:+ b).
Proof. reflexivity. Qed.

Lemma append_nil (b : string) : EmptyString +:+ b = b.
Proof. reflexivity. Qed.

Lemma append_assoc (a b c : string) : (a +:+ b) +:+ c = a +:+ (b +:+ c).
Proof.
  induction a as [|x a IH]; [reflexivity|].
  rewrite !append_cons. f_equal. exact IH.
Qed.

Lemma is_digit_of_mod (k : Z) :
  ISO.is_digit (ascii_of_nat (48 + Z.to_nat (k mod 10))) = true.
Proof.
  assert (H : 0 <= k mod 10 < 10) by (apply Z.mod_pos_bound; lia).
  assert (E : k mod 10 = 0 \/ k mod 10 = 1 \/ k mod 10 = 2 \/ k mod 10 = 3 \/ k mod 10 = 4 \/
              k mod 10 = 5 \/ k mod 10 = 6 \/ k mod 10 = 7 \/ k mod 10 = 8 \/ k mod 10 = 9) by lia.
  destruct E as [E|[E|[E|[E|[E|[E|[E|[E|[E|E]]]]]]]]]; rewrite E; reflexivity.
Qed.

(** [digits n k] is [n] decimal digits, whatever follows. *)
Lemma matches_digits (n : nat) (k : Z) (p : list ISO.pat) (s : string) :
  ISO.matches p s = true ->
  ISO.matches (repeat ISO.D n ++ p) (ISO.digits n k +:+ s) = true.
Proof.
  revert k p s. induction n as [|n IH]; intros k p s H; [exact H|].
  cbn [repeat ISO.digits]. rewrite repeat_cons.
  rewrite <- app_assoc, append_assoc, append_cons, append_nil. apply IH.
  cbn [ISO.matches app]. now rewrite is_digit_of_mod, H.
Qed.

Lemma matches_char (c : ascii) (p : list ISO.pat) (s : string) :
  ISO.matches p s = true ->
  ISO.matches (ISO.C c :: p) (String c EmptyString +:+ s) = true.
Proof.
  intros H. rewrite append_cons, append_nil. cbn [ISO.matches].
  now rewrite Ascii.eqb_refl, H.
Qed.

Lemma matches_tail (m d h mi sec ms : Z) :
  ISO.matches ISO.tail_pat
    ("-" +:+ ISO.digits 2 m +:+ "-" +:+ ISO.digits 2 d +:+ "T" +:+ ISO.digits 2 h +:+ ":" +:+
     ISO.digits 2 mi +:+ ":" +:+ ISO.digits 2 sec +:+ "." +:+ ISO.digits 3 ms +:+ "Z") = true.
Proof.
  unfold ISO.tail_pat.
  apply matches_char, (matches_digits 2), matches_char, (matches_digits 2), matches_char,
    (matches_digits 2), matches_char, (matches_digits 2), matches_char, (matches_digits 2),
    matches_char.
  change "Z"%string with ("Z" +:+ EmptyString).
  apply (matches_digits 3), matches_char. reflexivity.
Qed.

(** Every text [format] produces has the shape of an ISO-8601 timestamp
    in UTC: four-digit year, or a sign and six digits, then
    [-MM-DDTHH:mm:ss.sssZ]. *)
Lemma format_is_iso8601_utc (t : Z) : ISO.is_iso8601_utc (ISO.format t) = true.
Proof.
  unfold ISO.format, ISO.is_iso8601_utc.
  destruct (ISO.civil_from_days (t / ISO.msPerDay)) as [[y m] d].
  unfold ISO.year_string.
  destruct ((0 <=? y) && (y <=? 9999)).
  - rewrite (matches_digits 4); [reflexivity|apply matches_tail].
  - rewrite append_assoc. apply orb_true_iff.
    destruct (y <? 0).
    + right. apply (matches_char "-"), (matches_digits 6), matches_tail.
    + left. apply orb_true_iff. right.
      apply (matches_char "+"), (matches_digits 6), matches_tail.
Qed.

Lemma mod10_cases (k : Z) :
  k mod 10 = 0 \/ k mod 10 = 1 \/ k mod 10 = 2 \/ k mod 10 = 3 \/ k mod 10 = 4 \/
  k mod 10 = 5 \/ k mod 10 = 6 \/ k mod 10 = 7 \/ k mod 10 = 8 \/ k mod 10 = 9.
Proof. assert (H : 0 <= k mod 10 < 10) by (apply Z.mod_pos_bound; lia). lia. Qed.

Lemma read_one_digit (k acc : Z) (s : string) :
  ISO.read_digits 1 acc (String (ascii_of_nat (48 + Z.to_nat (k mod 10))) s)
  = Some (10 * acc + k mod 10, s).
Proof.
  destruct (mod10_cases k) as [E|[E|[E|[E|[E|[E|[E|[E|[E|E]]]]]]]]]; rewrite E; reflexivity.
Qed.

Lemma read_digits_add (n m : nat) (acc : Z) (s : string) :
  ISO.read_digits (n + m) acc s =
  match ISO.read_digits n acc s with
  | Some (a, r) => ISO.read_digits m a r
  | None => None
  end.
Proof.
  revert acc s. induction n as [|n IH]; intros acc s; [reflexivity|].
  cbn [Nat.add ISO.read_digits]. destruct s as [|c s]; [reflexivity|].
  destruct (ISO.is_digit c); [apply IH|reflexivity].
Qed.

Lemma read_digits_digits (n : nat) (k acc : Z) (s : string) :
  0 <= k < 10 ^ Z.of_nat n ->
  ISO.read_digits n acc (ISO.digits n k +:+ s) = Some (acc * 10 ^ Z.of_nat n + k, s).
Proof.
  revert k acc s. induction n as [|n IH]; intros k acc s Hk.
  - cbn. f_equal. f_equal. change (10 ^ Z.of_nat 0) with 1 in *. lia.
  - replace (S n) with (n + 1)%nat at 1 by lia. rewrite read_digits_add.
    cbn [ISO.digits]. rewrite append_assoc, append_cons, append_nil.
    rewrite Nat2Z.inj_succ, Z.pow_succ_r in * by lia.
    rewrite IH by (Z.div_mod_to_equations; lia).
    rewrite read_one_digit. f_equal. f_equal.
    pose proof (Z.div_mod k 10). lia.
Qed.

Lemma read_digits_0 (n : nat) (k : Z) (s : string) :
  0 <= k < 10 ^ Z.of_nat n ->
  ISO.read_digits n 0 (ISO.digits n k +:+ s) = Some (k, s).
Proof. intros Hk. now rewrite read_digits_digits by exact Hk. Qed.

Lemma expect_char (c : ascii) (s : string) :
  ISO.expect c (String c EmptyString +:+ s) = Some s.
Proof. rewrite append_cons, append_nil. cbn. now rewrite Ascii.eqb_refl. Qed.

Lemma civil_from_days_correct (n : Z) :
  let '(y, m, d) := ISO.civil_from_days n in
  1 <= m <= 12 /\ 1 <= d <= 31 /\ ISO.days_from_civil y m d = n
  /\ (n + 719468) / 146097 * 400 <= y <= (n + 719468) / 146097 * 400 + 400.
Proof.
  unfold ISO.civil_from_days.
  set (z := n + 719468). set (era := z / 146097). set (doe := z - era * 146097).
  assert (Hdoe : 0 <= doe < 146097) by (subst doe era; Z.div_mod_to_equations; lia).
  set (yoe := (doe - doe / 1460 + doe / 36524 - doe / 146096) / 365).
  set (doy := doe - (365 * yoe + yoe / 4 - yoe / 100)).
  assert (Hyoe : 0 <= yoe < 400 /\ 0 <= doy < 366)
    by (subst doy yoe; Z.div_mod_to_equations; lia).
  set (mp := (5 * doy + 2) / 153).
  assert (Hmp : 0 <= mp < 12) by (subst mp; Z.div_mod_to_equations; lia).
  set (m := if mp <? 10 then mp + 3 else mp - 9).
  assert (Hm : 1 <= m <= 12 /\ ((mp < 10 /\ m = mp + 3) \/ (10 <= mp /\ m = mp - 9))).
  { subst m. destruct (Z.ltb_spec mp 10); lia. }
  set (d := doy - (153 * mp + 2) / 5 + 1).
  assert (Hd : 1 <= d <= 31) by (subst d mp; Z.div_mod_to_equations; lia).
  split; [lia|]. split; [exact Hd|]. split.
  - unfold ISO.days_from_civil.
    assert (Hmp' : (if 2 <? m then m - 3 else m + 9) = mp).
    { destruct (Z.ltb_spec 2 m); lia. }
    rewrite Hmp'.
    replace (yoe + era * 400 + (if m <=? 2 then 1 else 0) - (if m <=? 2 then 1 else 0))
      with (yoe + era * 400) by lia.
    assert (He : (yoe + era * 400) / 400 = era) by (Z.div_mod_to_equations; lia).
    rewrite He.
    replace (yoe + era * 400 - era * 400) with yoe by lia.
    subst d doy doe z. lia.
  - destruct (m <=? 2); lia.
Qed.

Lemma read_digits_not_digit (n : nat) (acc : Z) (c : ascii) (s : string) :
  ISO.is_digit c = false -> ISO.read_digits (S n) acc (String c s) = None.
Proof. intros H. cbn [ISO.read_digits]. now rewrite H. Qed.

Lemma read_year_year_string (y : Z) (s : string) :
  -999999 <= y <= 999999 ->
  ISO.read_year (ISO.year_string y +:+ s) = Some (y, s).
Proof.
  intros Hy. unfold ISO.year_string, ISO.read_year.
  destruct ((0 <=? y) && (y <=? 9999)) eqn:E.
  - apply andb_true_iff in E. destruct E as [E1 E2]. apply Z.leb_le in E1, E2.
    rewrite (read_digits_0 4) by (change (10 ^ Z.of_nat 4) with 10000; lia).
    reflexivity.
  - assert (Hout : y < 0 \/ 9999 < y).
    { apply andb_false_iff in E. destruct E as [E|E]; apply Z.leb_gt in E; lia. }
    rewrite append_assoc. destruct (Z.ltb_spec y 0) as [Hneg|Hpos].
    + rewrite append_cons, append_nil.
      rewrite read_digits_not_digit by reflexivity.
      change (Ascii.eqb "-" "+") with false. change (Ascii.eqb "-" "-") with true. cbv iota.
      rewrite (read_digits_0 6) by (change (10 ^ Z.of_nat 6) with 1000000; lia).
      cbn [mbind option_bind]. f_equal. f_equal. lia.
    + rewrite append_cons, append_nil.
      rewrite read_digits_not_digit by reflexivity.
      change (Ascii.eqb "+" "+") with true. cbv iota.
      rewrite (read_digits_0 6) by (change (10 ^ Z.of_nat 6) with 1000000; lia).
      f_equal. f_equal. lia.
Qed.

Lemma time_denoted_format (t : Z) :
  - ISO.maxTimeValue <= t <= ISO.maxTimeValue ->
  ISO.time_denoted (ISO.format t) = Some t.
Proof.
  intros Ht. unfold ISO.format, ISO.time_denoted.
  pose proof (civil_from_days_correct (t / ISO.msPerDay)) as Hc.
  destruct (ISO.civil_from_days (t / ISO.msPerDay)) as [[y m] d].
  destruct Hc as (Hm & Hd & Hdays & Hy).
  set (ms := t mod ISO.msPerDay).
  assert (Hms : 0 <= ms < 86400000) by (subst ms; apply Z.mod_pos_bound; reflexivity).
  assert (Hyr : -999999 <= y <= 999999).
  { unfold ISO.maxTimeValue, ISO.msPerDay in *. Z.div_mod_to_equations. lia. }
  rewrite read_year_year_string by exact Hyr. cbn [mbind option_bind].
  rewrite expect_char. cbn [mbind option_bind].
  rewrite (read_digits_0 2) by (change (10 ^ Z.of_nat 2) with 100; lia).
  cbn [mbind option_bind]. rewrite expect_char. cbn [mbind option_bind].
  rewrite (read_digits_0 2) by (change (10 ^ Z.of_nat 2) with 100; lia).
  cbn [mbind option_bind]. rewrite expect_char. cbn [mbind option_bind].
  rewrite (read_digits_0 2)
    by (change (10 ^ Z.of_nat 2) with 100; Z.div_mod_to_equations; lia).
  cbn [mbind option_bind]. rewrite expect_char. cbn [mbind option_bind].
  rewrite (read_digits_0 2)
    by (change (10 ^ Z.of_nat 2) with 100; Z.div_mod_to_equations; lia).
  cbn [mbind option_bind]. rewrite expect_char. cbn [mbind option_bind].
  rewrite (read_digits_0 2)
    by (change (10 ^ Z.of_nat 2) with 100; Z.div_mod_to_equations; lia).
  cbn [mbind option_bind]. rewrite expect_char. cbn [mbind option_bind].
  change "Z"%string with ("Z" +:+ EmptyString).
  rewrite (read_digits_0 3)
    by (change (10 ^ Z.of_nat 3) with 1000; Z.div_mod_to_equations; lia).
  cbn [mbind option_bind]. rewrite expect_char. cbn [mbind option_bind].
  f_equal. rewrite Hdays. subst ms. unfold ISO.msPerDay. Z.div_mod_to_equations. lia.
Qed.

End ISOShape.

(** ** The request body *)

Section Request.

Variable Number_toString : number -> string.
Variable Date_timeValue : value -> option Z.

Lemma prop_absent (md : gmap string value) (k : string) :
  md !! k = None -> JS.prop md k = VUndefined.
Proof. intros H. unfold JS.prop. now rewrite H. Qed.

Lemma prop_present (md : gmap string value) (k : string) (v : value) :
  md !! k = Some v -> JS.prop md k = v.
Proof. intros H. unfold JS.prop. now rewrite H. Qed.

(** What a built body says about the metadata it was built from: it is
    the literal, with [publishAt] added for a supplied time and
    [commentModerationStatus] for switched-off comments, and the metadata has
    no own entry named [hasOwnProperty]. *)
Lemma requestMetadata_inv (md : gmap string value) (req : RequestMetadata) :
  requestMetadata Date_timeValue md = Return req ->
  snippet req = snippet (requestMetadata_literal md)
  /\ privacyStatus (status req) = privacyStatus (status (requestMetadata_literal md))
  /\ embeddable (status req) = embeddable (status (requestMetadata_literal md))
  /\ publicStatsViewable (status req) = publicStatsViewable (status (requestMetadata_literal md))
  /\ selfDeclaredMadeForKids (status req)
     = selfDeclaredMadeForKids (status (requestMetadata_literal md))
  /\ (if JS.truthy (JS.prop md "publishAt")
      then exists s, ISO.toISOString (Date_timeValue (JS.prop md "publishAt")) = Return s
                     /\ publishAt (status req) = Some s
      else publishAt (status req) = None)
  /\ commentModerationStatus (status req)
     = (if bool_decide (is_Some (md !! "allowComments"))
           && negb (JS.truthy (JS.prop md "allowComments"))
        then Some "disabled" else None)
  /\ md !! "hasOwnProperty" = None.
Proof.
  unfold requestMetadata, JS.hasOwnProperty.
  destruct (md !! "hasOwnProperty") as [shadow|].
  { destruct (JS.truthy (JS.prop md "publishAt")); [|discriminate].
    destruct (ISO.toISOString (Date_timeValue (JS.prop md "publishAt"))); discriminate. }
  destruct (JS.truthy (JS.prop md "publishAt")).
  - destruct (ISO.toISOString (Date_timeValue (JS.prop md "publishAt"))) as [s|e];
      cbn [mbind outcome_bind mret outcome_ret]; [|discriminate].
    destruct (bool_decide (is_Some (md !! "allowComments"))
              && negb (JS.truthy (JS.prop md "allowComments")));
      intros H; injection H as <-; repeat split; exists s; split; reflexivity.
  - cbn [mbind outcome_bind mret outcome_ret].
    destruct (bool_decide (is_Some (md !! "allowComments"))
              && negb (JS.truthy (JS.prop md "allowComments")));
      intros H; injection H as <-; repeat split.
Qed.

Lemma toISOString_returns (tv : option Z) (s : string) :
  ISO.toISOString tv = Return s <->
  exists t, tv = Some t /\ - ISO.maxTimeValue <= t <= ISO.maxTimeValue /\ s = ISO.format t.
Proof.
  unfold ISO.toISOString. destruct tv as [t|].
  - destruct ((- ISO.maxTimeValue <=? t) && (t <=? ISO.maxTimeValue)) eqn:E.
    + apply andb_true_iff in E. destruct E as [E1 E2]. apply Z.leb_le in E1, E2. split.
      * intros H. injection H as <-. exists t. repeat split; assumption.
      * intros (t' & Ht & _ & ->). now injection Ht as <-.
    + split; [discriminate|]. intros (t' & Ht & [H1 H2] & _). injection Ht as <-.
      apply Z.leb_le in H1, H2. rewrite H1, H2 in E. discriminate E.
  - split; [discriminate|]. intros (t' & Ht & _). discriminate Ht.
Qed.

Lemma toISOString_throws_RangeError (tv : option Z) (e : error) :
  ISO.toISOString tv = Throw e -> e = mkError RangeError "Invalid time value" VUndefined.
Proof.
  unfold ISO.toISOString. destruct tv as [t|].
  - destruct ((- ISO.maxTimeValue <=? t) && (t <=? ISO.maxTimeValue)); [discriminate|].
    intros H. now injection H as <-.
  - intros H. now injection H as <-.
Qed.

(** A body is built exactly when the metadata has no own entry named
    [hasOwnProperty] and the publish time, when one is supplied, is a
    date. *)
Lemma requestMetadata_builds (md : gmap string value) :
  (exists req, requestMetadata Date_timeValue md = Return req)
  <-> md !! "hasOwnProperty" = None /\ publishAt_valid Date_timeValue md.
Proof.
  split.
  - intros [req Hr]. destruct (requestMetadata_inv md req Hr) as (_ & _ & _ & _ & _ & Hp & _ & Hn).
    split; [exact Hn|]. intros Ht. rewrite Ht in Hp. destruct Hp as (s & Hs & _).
    apply toISOString_returns in Hs. destruct Hs as (t & Ht' & Hrange & _).
    exists t. split; assumption.
  - intros [Hn Hvalid]. unfold publishAt_valid in Hvalid.
    unfold requestMetadata, JS.hasOwnProperty. rewrite Hn.
    destruct (JS.truthy (JS.prop md "publishAt")).
    + destruct (Hvalid eq_refl) as (t & Ht & Hrange).
      assert (Hs : ISO.toISOString (Date_timeValue (JS.prop md "publishAt"))
                   = Return (ISO.format t))
        by (apply toISOString_returns; exists t; split; [exact Ht|split; [exact Hrange|reflexivity]]).
      rewrite Hs. cbn [mbind outcome_bind mret outcome_ret].
      destruct (bool_decide (is_Some (md !! "allowComments"))
                && negb (JS.truthy (JS.prop md "allowComments"))); eauto.
    + cbn [mbind outcome_bind mret outcome_ret].
      destruct (bool_decide (is_Some (md !! "allowComments"))
                && negb (JS.truthy (JS.prop md "allowComments"))); eauto.
Qed.

(** How building a body fails: on the publish time first, then on the
    [hasOwnProperty] call. *)
Lemma requestMetadata_throws (md : gmap string value) (e : error) :
  requestMetadata Date_timeValue md = Throw e <->
  (JS.truthy (JS.prop md "publishAt") = true
   /\ ISO.toISOString (Date_timeValue (JS.prop md "publishAt")) = Throw e)
  \/ ((JS.truthy (JS.prop md "publishAt") = false
       \/ exists s, ISO.toISOString (Date_timeValue (JS.prop md "publishAt")) = Return s)
      /\ is_Some (md !! "hasOwnProperty")
      /\ e = mkError TypeError "hasOwnProperty is not a function" VUndefined).
Proof.
  unfold requestMetadata, JS.hasOwnProperty.
  destruct (JS.truthy (JS.prop md "publishAt")).
  - destruct (ISO.toISOString (Date_timeValue (JS.prop md "publishAt"))) as [s|e'];
      cbn [mbind outcome_bind mret outcome_ret].
    + destruct (md !! "hasOwnProperty") as [shadow|]; cbn [mbind outcome_bind mret outcome_ret].
      * split.
        -- intros H. injection H as <-. right. split; [right; eauto|]. split; [eauto|reflexivity].
        -- intros [[_ H]|(_ & _ & ->)]; [discriminate H|reflexivity].
      * destruct (bool_decide (is_Some (md !! "allowComments"))
                  && negb (JS.truthy (JS.prop md "allowComments")));
          (split; [discriminate|intros [[_ H]|(_ & [x Hx] & _)]; discriminate]).
    + split.
      * intros H. injection H as ->. left. split; reflexivity.
      * intros [[_ H]|([H|[s H]] & _)]; [injection H as ->; reflexivity|discriminate H|discriminate H].
  - cbn [mbind outcome_bind mret outcome_ret].
    destruct (md !! "hasOwnProperty") as [shadow|]; cbn [mbind outcome_bind mret outcome_ret].
    + split.
      * intros H. injection H as <-. right. split; [left; reflexivity|]. split; [eauto|reflexivity].
      * intros [[H _]|(_ & _ & ->)]; [discriminate H|reflexivity].
    + destruct (bool_decide (is_Some (md !! "allowComments"))
                && negb (JS.truthy (JS.prop md "allowComments")));
        (split; [discriminate|intros [[H _]|(_ & [x Hx] & _)]; discriminate]).
Qed.

Lemma requests_app (t1 t2 : list effect) : requests (t1 ++ t2) = requests t1 ++ requests t2.
Proof. apply List.filter_app. Qed.

Lemma requests_progress (l : list Snapshot.t) : requests (map progressCallback l) = [].
Proof. induction l as [|x l IH]; [reflexivity|exact IH]. Qed.

(** An upload of an existing file issues one remote call, which carries
    the request body. *)
Lemma uploadVideo_requests (w : world) (path : string) (md : gmap string value)
    (has_callback : bool) (this : instance) (size : Z) (req : RequestMetadata) :
  files w !! path = Some size ->
  requestMetadata Date_timeValue md = Return req ->
  requests (trace (run (uploadVideo Number_toString Date_timeValue w path md has_callback) this))
  = [api_request (videos_insert "snippet,status" req path)].
Proof.
  intros Hf Hr. rewrite (uploadVideo_run _ _ _ _ _ _ _ _ _ Hf Hr).
  destruct (remote_videos_insert w req path).2 as [data|e]; unfold trace; cbn [snd];
    unfold upload_head; rewrite !requests_app, ?requests_catch_trace;
    destruct has_callback; rewrite ?requests_progress; reflexivity.
Qed.

(** C1: every request body built from a metadata object has the default
    in each field whose key the metadata leaves out, whatever else it
    supplies: title 'Untitled Video', empty description, no tags, category
    '22', both languages 'de', privacy 'private', embeddable and
    publicStatsViewable true, selfDeclaredMadeForKids false.  A supplied
    truthy value takes the default's place, and a supplied [false] clears
    the two flags.  That body is what an upload of an existing file sends.
    A body is built exactly when the metadata has no own entry named
    [hasOwnProperty] and a supplied publish time is a valid date. *)
Theorem requestMetadata_defaults (md : gmap string value) :
  ((exists req, requestMetadata Date_timeValue md = Return req)
   <-> md !! "hasOwnProperty" = None /\ publishAt_valid Date_timeValue md)
  /\ forall req : RequestMetadata,
      requestMetadata Date_timeValue md = Return req ->
      (md !! "title" = None -> title (snippet req) = VStr "Untitled Video")
      /\ (md !! "description" = None -> description (snippet req) = VStr EmptyString)
      /\ (md !! "tags" = None -> tags (snippet req) = VArr [])
      /\ (md !! "categoryId" = None -> categoryId (snippet req) = VStr "22")
      /\ (md !! "language" = None ->
          defaultLanguage (snippet req) = VStr "de"
          /\ defaultAudioLanguage (snippet req) = VStr "de")
      /\ (md !! "privacy" = None -> privacyStatus (status req) = VStr "private")
      /\ (md !! "embeddable" = None -> embeddable (status req) = true)
      /\ (md !! "publicStatsViewable" = None -> publicStatsViewable (status req) = true)
      /\ (md !! "madeForKids" = None -> selfDeclaredMadeForKids (status req) = VBool false)
      /\ (forall v, md !! "title" = Some v -> JS.truthy v = true -> title (snippet req) = v)
      /\ (forall v, md !! "description" = Some v -> JS.truthy v = true ->
                    description (snippet req) = v)
      /\ (forall v, md !! "tags" = Some v -> JS.truthy v = true -> tags (snippet req) = v)
      /\ (forall v, md !! "categoryId" = Some v -> JS.truthy v = true ->
                    categoryId (snippet req) = v)
      /\ (forall v, md !! "language" = Some v -> JS.truthy v = true ->
                    defaultLanguage (snippet req) = v /\ defaultAudioLanguage (snippet req) = v)
      /\ (forall v, md !! "privacy" = Some v -> JS.truthy v = true ->
                    privacyStatus (status req) = v)
      /\ (forall v, md !! "madeForKids" = Some v -> JS.truthy v = true ->
                    selfDeclaredMadeForKids (status req) = v)
      /\ (md !! "embeddable" = Some (VBool false) -> embeddable (status req) = false)
      /\ (md !! "publicStatsViewable" = Some (VBool false) ->
          publicStatsViewable (status req) = false)
      /\ forall (w : world) (path : string) (size : Z) (has_callback : bool) (this : instance),
          files w !! path = Some size ->
          requests (trace (run (uploadVideo Number_toString Date_timeValue w path md
                                  has_callback) this))
          = [api_request (videos_insert "snippet,status" req path)].
Proof.
  split; [apply requestMetadata_builds|].
  intros req Hreq.
  destruct (requestMetadata_inv md req Hreq) as (Hsn & Hpriv & Hemb & Hpub & Hkids & _).
  rewrite Hsn, Hpriv, Hemb, Hpub, Hkids. unfold requestMetadata_literal.
  cbn [snippet status title description tags categoryId defaultLanguage defaultAudioLanguage
       privacyStatus embeddable publicStatsViewable selfDeclaredMadeForKids].
  repeat match goal with |- _ /\ _ => split end.
  all: try (intros H; rewrite (prop_absent _ _ H); try split; reflexivity).
  all: try (intros v H Hv; rewrite (prop_present _ _ _ H); unfold JS.or; rewrite Hv;
            try split; reflexivity).
  all: try (intros H; rewrite (prop_present _ _ _ H); reflexivity).
  intros w path size has_callback this Hf. now apply uploadVideo_requests with (size := size).
Qed.

(** C5: when the metadata has its own [allowComments] entry and the
    entry's value is falsy, every request body built from it has
    commentModerationStatus 'disabled' in its status block, and that body is
    what an upload of an existing file sends; a body is built exactly when
    the metadata has no own entry named [hasOwnProperty] and a supplied
    publish time is a valid date.  In the example scenario (a title, a
    description, privacy 'unlisted', allowComments false) the body sent has
    privacyStatus 'unlisted', commentModerationStatus 'disabled', the given
    title and description, tags [] and categoryId '22'. *)
Theorem comments_disabled (md : gmap string value) (v : value) :
  md !! "allowComments" = Some v ->
  JS.truthy v = false ->
  ((exists req, requestMetadata Date_timeValue md = Return req)
   <-> md !! "hasOwnProperty" = None /\ publishAt_valid Date_timeValue md)
  /\ (forall req : RequestMetadata,
        requestMetadata Date_timeValue md = Return req ->
        commentModerationStatus (status req) = Some "disabled"
        /\ forall (w : world) (path : string) (size : Z) (has_callback : bool) (this : instance),
          files w !! path = Some size ->
          requests (trace (run (uploadVideo Number_toString Date_timeValue w path md
                                  has_callback) this))
          = [api_request (videos_insert "snippet,status" req path)])
  /\ forall (t d : string),
      t <> EmptyString ->
      requestMetadata Date_timeValue
        {[ "title" := VStr t; "description" := VStr d;
           "privacy" := VStr "unlisted"; "allowComments" := VBool false ]}
      = Return
          {| snippet := {| title := VStr t; description := VStr d; tags := VArr [];
                           categoryId := VStr "22";
                           defaultLanguage := VStr "de"; defaultAudioLanguage := VStr "de" |};
             status := {| privacyStatus := VStr "unlisted";
                          embeddable := true; publicStatsViewable := true;
                          selfDeclaredMadeForKids := VBool false;
                          publishAt := None;
                          commentModerationStatus := Some "disabled" |} |}
      /\ forall (w : world) (path : string) (size : Z) (has_callback : bool) (this : instance),
          files w !! path = Some size ->
          requests (trace (run (uploadVideo Number_toString Date_timeValue w path
                                  {[ "title" := VStr t; "description" := VStr d;
                                     "privacy" := VStr "unlisted";
                                     "allowComments" := VBool false ]}
                                  has_callback) this))
          = [api_request
               (videos_insert "snippet,status"
                  {| snippet := {| title := VStr t; description := VStr d; tags := VArr [];
                                   categoryId := VStr "22";
                                   defaultLanguage := VStr "de";
                                   defaultAudioLanguage := VStr "de" |};
                     status := {| privacyStatus := VStr "unlisted";
                                  embeddable := true; publicStatsViewable := true;
                                  selfDeclaredMadeForKids := VBool false;
                                  publishAt := None;
                                  commentModerationStatus := Some "disabled" |} |}
                  path)].
Proof.
  intros Hv Hfalsy. split; [apply requestMetadata_builds|]. split.
  - intros req Hreq. split.
    + destruct (requestMetadata_inv md req Hreq) as (_ & _ & _ & _ & _ & _ & Hc & _).
      rewrite Hc, (prop_present _ _ _ Hv), Hv, Hfalsy.
      rewrite bool_decide_eq_true_2; [reflexivity|eauto].
    + intros w path size has_callback this Hf.
      now apply uploadVideo_requests with (size := size).
  - intros t d Ht.
    set (scenario := {[ "title" := VStr t; "description" := VStr d;
                        "privacy" := VStr "unlisted"; "allowComments" := VBool false ]}
                     : gmap string value).
    assert (Hbody : requestMetadata Date_timeValue scenario
                    = Return
                        {| snippet := {| title := VStr t; description := VStr d;
                                         tags := VArr []; categoryId := VStr "22";
                                         defaultLanguage := VStr "de";
                                         defaultAudioLanguage := VStr "de" |};
                           status := {| privacyStatus := VStr "unlisted";
                                        embeddable := true; publicStatsViewable := true;
                                        selfDeclaredMadeForKids := VBool false;
                                        publishAt := None;
                                        commentModerationStatus := Some "disabled" |} |}).
    { assert (Htitle : JS.or (VStr t) (VStr "Untitled Video") = VStr t).
      { unfold JS.or. cbn [JS.truthy]. destruct t; [congruence|reflexivity]. }
      assert (Hdesc : JS.or (VStr d) (VStr EmptyString) = VStr d).
      { unfold JS.or. cbn [JS.truthy]. destruct d; reflexivity. }
      assert (H1 : JS.prop scenario "title" = VStr t) by reflexivity.
      assert (H2 : JS.prop scenario "description" = VStr d) by reflexivity.
      assert (H3 : JS.prop scenario "privacy" = VStr "unlisted") by reflexivity.
      assert (H4 : JS.prop scenario "allowComments" = VBool false) by reflexivity.
      assert (H5 : forall k, scenario !! k = None -> JS.prop scenario k = VUndefined)
        by (intros k; apply prop_absent).
      assert (H6 : JS.hasOwnProperty scenario "allowComments" = Return true) by reflexivity.
      unfold requestMetadata, requestMetadata_literal.
      rewrite H1, H2, H3, H4, H6, Htitle, Hdesc.
      rewrite !H5 by reflexivity. reflexivity. }
    split; [exact Hbody|].
    intros w path size has_callback this Hf.
    now apply uploadVideo_requests with (size := size).
Qed.


End Request.

(** ** The listing operations *)

Section Listings.

Variable Number_toString : number -> string.
Variable w : world.

(** Reading a property either yields a value or throws a TypeError. *)
Lemma get_cases (v : value) (k : string) :
  (exists x, JS.get v k = Return x)
  \/ (exists e, JS.get v k = Throw e /\ err_kind e = TypeError).
Proof. destruct v; cbn; eauto. Qed.

Lemma quota_literal_cases (channel : value) :
  (exists q, quota_literal channel = Return q)
  \/ (exists e, quota_literal channel = Throw e /\ err_kind e = TypeError).
Proof.
  unfold quota_literal, mbind, outcome_bind, mret, outcome_ret.
  destruct (get_cases channel "id") as [[x ->]|(e & -> & He)]; [|eauto].
  destruct (get_cases channel "statistics") as [[st ->]|(e & -> & He)]; [|eauto].
  cbv beta iota.
  destruct (get_cases st "videoCount") as [[vc ->]|(e & -> & He)]; [|eauto].
  destruct (get_cases channel "contentDetails") as [[cd ->]|(e & -> & He)]; [|eauto].
  cbv beta iota.
  destruct (get_cases cd "contentRatings") as [[cr ->]|(e & -> & He)]; [|eauto].
  eauto.
Qed.

(** What [getUploadQuota] does with an answered channel listing. *)
Lemma getUploadQuota_run (data : listing) (this : instance) :
  remote_channels_list w = Return data ->
  result (run (getUploadQuota w) this) =
  match items data with
  | Some (channel :: _) => quota_literal channel
  | _ => Throw (new_Error "Kein Kanal gefunden")
  end
  /\ requests (trace (run (getUploadQuota w) this))
     = [api_request (channels_list "contentDetails,statistics" true)].
Proof.
  intros Hd. unfold run, getUploadQuota, try_catch.
  unfold mbind, M_bind, emit, lift, mret, M_ret. rewrite Hd. cbv beta iota zeta.
  destruct (items data) as [[|channel rest]|].
  - unfold throw. cbv beta iota zeta. rewrite log_and_rethrow_run. split; reflexivity.
  - destruct (quota_literal channel) as [q|e]; cbv beta iota zeta.
    + split; reflexivity.
    + rewrite log_and_rethrow_run. split; [reflexivity|].
      unfold trace. cbn [snd]. rewrite !requests_app, requests_catch_trace. reflexivity.
  - unfold throw. cbv beta iota zeta. rewrite log_and_rethrow_run. split; reflexivity.
Qed.

(** C7: once the channel listing is answered, [getUploadQuota] fails
    with the no-channel error exactly when the answer has no [items] or an
    empty [items]; and when the first channel is an object carrying the
    requested [statistics] and [contentDetails] parts, the result is the
    record of its [id], [statistics.videoCount] and
    [contentDetails.contentRatings]. *)
Theorem getUploadQuota_no_channel_iff (data : listing) (this : instance) :
  remote_channels_list w = Return data ->
  (result (run (getUploadQuota w) this) = Throw (new_Error "Kein Kanal gefunden")
   <-> items data = None \/ items data = Some [])
  /\ forall (channel statistics contentDetails : gmap string value) (rest : list value),
      items data = Some (VObj channel :: rest) ->
      channel !! "statistics" = Some (VObj statistics) ->
      channel !! "contentDetails" = Some (VObj contentDetails) ->
      result (run (getUploadQuota w) this) =
      Return {| channelId := JS.prop channel "id";
                totalVideos := JS.prop statistics "videoCount";
                quotaInfo := JS.prop contentDetails "contentRatings" |}.
Proof.
  intros Hd. destruct (getUploadQuota_run data this Hd) as [Hres _]. rewrite Hres. split.
  - destruct (items data) as [[|channel rest]|].
    + split; [intros _; now right|reflexivity].
    + split.
      * intros H. destruct (quota_literal_cases channel) as [[q Hq]|(e & He & Hk)].
        -- rewrite Hq in H. discriminate H.
        -- rewrite He in H. injection H as ->. discriminate Hk.
      * intros [H|H]; discriminate H.
    + split; [intros _; now left|reflexivity].
  - intros channel statistics contentDetails rest -> Hst Hcd.
    unfold quota_literal. cbn [JS.get mbind outcome_bind mret outcome_ret].
    now rewrite (prop_present _ _ _ Hst), (prop_present _ _ _ Hcd).
Qed.

Lemma listing_requests (A : Type) (label : string) (c : api_call) (msg : string)
    (answer : outcome listing) (suffix : string) (this : instance) :
  requests (trace (run
    (try_catch
       (emit (console_log msg []);;
        emit (api_request c);;
        data ← lift answer;
        n ← lift (items_length data);
        emit (console_log (Number_toString n +:+ suffix) []);;
        mret (items data))
       (log_and_rethrow label)) this)) = [api_request c].
Proof.
  unfold run, try_catch, mbind, M_bind, emit, lift, mret, M_ret.
  destruct answer as [[[l|]]|e]; cbv beta iota zeta; cbn [items_length items];
    cbv beta iota zeta; rewrite ?log_and_rethrow_run; unfold trace; cbn [snd];
    rewrite ?requests_app, ?requests_catch_trace; reflexivity.
Qed.

(** C8: whenever the remote answer to [getVideoCategories] has an [items]
    list, the operation returns that very list, and likewise
    [getMyPlaylists], each on its own answer alone.  Whatever the remote
    side answers, [getMyPlaylists] asks for [maxResults] 50,
    [getVideoCategories] called without a region asks for region 'DE', and
    called with a region asks for that one. *)
Theorem listings_returned_verbatim (regionCode : option string) (this : instance) :
  (forall categories : list value,
      remote_videoCategories_list w (default "DE" regionCode)
      = Return {| items := Some categories |} ->
      result (run (getVideoCategories Number_toString w regionCode) this)
      = Return (Some categories))
  /\ (forall playlists : list value,
        remote_playlists_list w 50 = Return {| items := Some playlists |} ->
        result (run (getMyPlaylists Number_toString w) this) = Return (Some playlists))
  /\ requests (trace (run (getMyPlaylists Number_toString w) this))
     = [api_request (playlists_list "snippet" true 50)]
  /\ requests (trace (run (getVideoCategories Number_toString w None) this))
     = [api_request (videoCategories_list "snippet" "DE")]
  /\ requests (trace (run (getVideoCategories Number_toString w regionCode) this))
     = [api_request (videoCategories_list "snippet" (default "DE" regionCode))].
Proof.
  split; [|split; [|split; [|split]]].
  - intros categories Hc.
    unfold run, getVideoCategories, try_catch, mbind, M_bind, emit, lift, mret, M_ret.
    rewrite Hc. reflexivity.
  - intros playlists Hp.
    unfold run, getMyPlaylists, try_catch, mbind, M_bind, emit, lift, mret, M_ret.
    rewrite Hp. reflexivity.
  - apply (listing_requests (list value)).
  - apply (listing_requests (list value)).
  - apply (listing_requests (list value)).
Qed.

End Listings.

(** ** The model at work on the sample worlds *)


(** Progress events at 0, S/4, S/2, 3S/4 and S of a 1000-byte file are
    reported as 25, 50, 75 and 100 percent. *)
Example quarters_reported :
  map Snapshot.progress (callbacks (trace (run (uploadVideo Sample.show_number Sample.time_value Sample.the_world
                                   "/videos/a.mp4" ∅ true) (constructor VNull))))
  = [of_Z 25; of_Z 50; of_Z 75; of_Z 100].
Proof. vm_compute. reflexivity. Qed.

Example quarters_texts :
  map (fun s => (Snapshot.status s, Snapshot.timeRemaining s, Snapshot.speed s))
      (callbacks (trace (run (uploadVideo Sample.show_number Sample.time_value Sample.the_world
                                   "/videos/a.mp4" ∅ true) (constructor VNull))))
  = [("Uploading...", "Noch 0 Min 0 Sek", "0 MB/s");
     ("Uploading...", "Noch 0 Min 0 Sek", "0 MB/s");
     ("Uploading...", "Noch 0 Min 0 Sek", "0 MB/s");
     ("Verarbeite Video...", "YouTube verarbeitet dein Video...", "0 MB/s")].
Proof. vm_compute. reflexivity. Qed.

(** 40 MB of a 100 MB file after 20 s: 2 MB/s, 30 s to go. *)
Example forty_percent :
  let s := make_snapshot Sample.show_number (of_Z 104857600) 0 (Sample.evt 41943040 20000) in
  (Snapshot.progress s, Snapshot.status s, Snapshot.timeRemaining s, Snapshot.speed s)
  = (of_Z 40, "Uploading...", "Noch 0 Min 30 Sek", "2 MB/s").
Proof. vm_compute. reflexivity. Qed.

(** 97 MB of 100 MB after 97.5 s. *)
Example almost_done :
  let s := make_snapshot Sample.show_number (of_Z 104857600) 0 (Sample.evt 101711872 97500) in
  (Snapshot.progress s, Snapshot.status s, Snapshot.timeRemaining s, Snapshot.speed s)
  = (of_Z 97, "Fast fertig...", "Noch 0 Min 3 Sek", "0.99 MB/s").
Proof. vm_compute. reflexivity. Qed.

(** A clock that was set back during the upload: the throughput is
    negative. *)
Example clock_set_back :
  let s := make_snapshot Sample.show_number (of_Z 1000) 5000 (Sample.evt 500 4000) in
  (Snapshot.progress s, Snapshot.status s, Snapshot.timeRemaining s)
  = (of_Z 50, "Uploading...", "Berechne...").
Proof. vm_compute. reflexivity. Qed.


(** ** The theorems at concrete inputs *)

Lemma requestMetadata_defaults_witness :
  exists req,
    requestMetadata Sample.time_value {[ "title" := VStr "T" ]} = Return req
    /\ title (snippet req) = VStr "T"
    /\ description (snippet req) = VStr EmptyString
    /\ tags (snippet req) = VArr []
    /\ privacyStatus (status req) = VStr "private"
    /\ embeddable (status req) = true
    /\ requests (trace (run (uploadVideo Sample.show_number Sample.time_value Sample.the_world
                               "/videos/a.mp4" {[ "title" := VStr "T" ]} true)
                            (constructor VNull)))
       = [api_request (videos_insert "snippet,status" req "/videos/a.mp4")].
Proof.
  destruct (requestMetadata_defaults Sample.show_number Sample.time_value
              {[ "title" := VStr "T" ]}) as [Hbuilt Hfields].
  destruct (proj2 Hbuilt) as [req Hreq].
  { split; [reflexivity|]. intros H. vm_compute in H. discriminate H. }
  destruct (Hfields req Hreq)
    as (_ & Hd & Hg & _ & _ & Hp & He & _ & _ & Ht & _ & _ & _ & _ & _ & _ & _ & _ & Hsent).
  exists req. split; [exact Hreq|].
  split; [apply Ht; reflexivity|].
  split; [apply Hd; reflexivity|].
  split; [apply Hg; reflexivity|].
  split; [apply Hp; reflexivity|].
  split; [apply He; reflexivity|].
  apply Hsent with (size := 1000). reflexivity.
Defined.

Lemma uploadVideo_snapshot_fields_witness :
  exists evt,
    evt ∈ [Sample.evt 0 5000; Sample.evt 250 5100; Sample.evt 500 5200; Sample.evt 750 5300;
           Sample.evt 1000 5400]
    /\ Snapshot.progress (make_snapshot Sample.show_number (of_Z 1000) 5000 (Sample.evt 250 5100))
       = Math_round (mul (div (bytesRead evt) (of_Z 1000)) (of_Z 100)).
Proof.
  destruct (uploadVideo_snapshot_fields Sample.show_number Sample.time_value Sample.the_world
              "/videos/a.mp4" ∅ true (constructor VNull) 1000 (requestMetadata_literal ∅)
              (make_snapshot Sample.show_number (of_Z 1000) 5000 (Sample.evt 250 5100)))
    as (evt & Hevt & Hp & _).
  - reflexivity.
  - reflexivity.
  - vm_compute. constructor.
  - exists evt. split; [exact Hevt|exact Hp].
Defined.

Lemma missing_file_fails_before_any_request_witness :
  Sample.the_world.(files) !! "/videos/nothere.mp4" = None
  /\ result (run (uploadVideo Sample.show_number Sample.time_value Sample.the_world
                    "/videos/nothere.mp4" ∅ true) (constructor VNull))
     = Throw (new_Error "Datei nicht gefunden: /videos/nothere.mp4")
  /\ requests (trace (run (setThumbnail Sample.the_world "vid123" "/videos/nothere.mp4")
                          (constructor VNull))) = [].
Proof.
  assert (Hf : Sample.the_world.(files) !! "/videos/nothere.mp4" = None) by reflexivity.
  split; [exact Hf|].
  destruct (missing_file_fails_before_any_request Sample.show_number Sample.time_value
              Sample.the_world "/videos/nothere.mp4" Hf) as [Hup Hth].
  split.
  - exact (proj1 (Hup ∅ true (constructor VNull))).
  - exact (proj1 (proj2 (Hth "vid123" (constructor VNull)))).
Defined.

Lemma comments_disabled_witness :
  exists req,
    requestMetadata Sample.time_value {[ "allowComments" := VNum (of_Z 0) ]} = Return req
    /\ commentModerationStatus (status req) = Some "disabled".
Proof.
  assert (Hown : ({[ "allowComments" := VNum (of_Z 0) ]} : gmap string value) !! "allowComments"
                 = Some (VNum (of_Z 0))) by reflexivity.
  assert (Hfalsy : JS.truthy (VNum (of_Z 0)) = false) by reflexivity.
  destruct (comments_disabled Sample.show_number Sample.time_value
              {[ "allowComments" := VNum (of_Z 0) ]} (VNum (of_Z 0)) Hown Hfalsy)
    as (Hbuilt & Hdisabled & _).
  destruct (proj2 Hbuilt) as [req Hreq].
  { split; [reflexivity|]. intros H. vm_compute in H. discriminate H. }
  exists req. split; [exact Hreq|exact (proj1 (Hdisabled req Hreq))].
Defined.



Lemma getUploadQuota_no_channel_iff_witness :
  result (run (getUploadQuota Sample.idle_world) (constructor VNull))
  = Throw (new_Error "Kein Kanal gefunden")
  /\ result (run (getUploadQuota Sample.the_world) (constructor VNull))
     = Return {| channelId := VStr "UC1"; totalVideos := VStr "42"; quotaInfo := VUndefined |}.
Proof.
  split.
  - apply (getUploadQuota_no_channel_iff Sample.idle_world {| items := Some [] |}
             (constructor VNull) eq_refl).
    right. reflexivity.
  - exact (proj2 (getUploadQuota_no_channel_iff Sample.the_world
                    {| items := Some [Sample.channel] |} (constructor VNull) eq_refl)
             _ {[ "videoCount" := VStr "42" ]} ∅ [] eq_refl eq_refl eq_refl).
Defined.

Lemma listings_returned_verbatim_witness :
  result (run (getVideoCategories Sample.show_number Sample.the_world None) (constructor VNull))
  = Return (Some [VStr "c1"; VStr "c2"; VStr "c1"])
  /\ result (run (getMyPlaylists Sample.show_number Sample.the_world) (constructor VNull))
     = Return (Some [VStr "p2"; VStr "p1"]).
Proof.
  destruct (listings_returned_verbatim Sample.show_number Sample.the_world None
              (constructor VNull)) as (Hc & Hp & _).
  split; [apply Hc; reflexivity|apply Hp; reflexivity].
Defined.

Lemma uploadVideo_zero_size_no_callback_witness :
  Sample.idle_world.(files) !! "/videos/empty.mp4" = Some 0
  /\ callbacks (trace (run (uploadVideo Sample.show_number Sample.time_value Sample.idle_world
                              "/videos/empty.mp4" ∅ true) (constructor VNull))) = [].
Proof.
  split; [reflexivity|].
  apply uploadVideo_zero_size_no_callback.
  - reflexivity.
  - intros req. repeat constructor.
Defined.

(** C10 as first stated fails: a file whose size was 0 when it was
    measured, and of which the transport then reads 1024 and 2048 bytes,
    gets one progress callback, with the percentage Infinity. *)
Lemma zero_size_callback_counterexample :
  Sample.grown_world.(files) !! "/videos/empty.mp4" = Some 0
  /\ map Snapshot.progress
       (callbacks (trace (run (uploadVideo Sample.show_number Sample.time_value Sample.grown_world
                                 "/videos/empty.mp4" ∅ true) (constructor VNull))))
     = [Infinity].
Proof. split; vm_compute; reflexivity. Qed.

(** ** How the remaining operations run *)

Section MoreRuns.

Variable Number_toString : number -> string.
Variable w : world.

Lemma setThumbnail_run (videoId path : string) (size : Z) (this : instance) :
  files w !! path = Some size ->
  run (setThumbnail w videoId path) this =
  match remote_thumbnails_set w videoId path with
  | Return data =>
      (Return data, this,
       [console_log ("Setze Thumbnail für Video " +:+ videoId +:+ ": " +:+ path) [];
        createReadStream path;
        api_request (thumbnails_set videoId path);
        console_log "Thumbnail erfolgreich gesetzt:" [LVal data]])
  | Throw e =>
      (Throw e, this,
       [console_log ("Setze Thumbnail für Video " +:+ videoId +:+ ": " +:+ path) [];
        createReadStream path;
        api_request (thumbnails_set videoId path)] ++ catch_trace "Thumbnail-Fehler:" e)
  end.
Proof.
  intros Hf. destruct (existsSync_true _ _ _ Hf) as [Hex _].
  unfold run, setThumbnail, try_catch, mbind, M_bind, emit, lift, mret, M_ret.
  rewrite Hex. cbn [negb]. cbv beta iota zeta.
  destruct (remote_thumbnails_set w videoId path) as [data|e]; cbv beta iota zeta.
  - reflexivity.
  - rewrite log_and_rethrow_run. reflexivity.
Qed.

Lemma addVideoToPlaylist_run (videoId playlistId : string) (this : instance) :
  run (addVideoToPlaylist w videoId playlistId) this =
  match remote_playlistItems_insert w playlistId videoId with
  | Return data =>
      (Return data, this,
       [console_log ("Füge Video " +:+ videoId +:+ " zu Playlist " +:+ playlistId +:+ " hinzu") [];
        api_request (playlistItems_insert "snippet" playlistId "youtube#video" videoId);
        console_log "Video erfolgreich zur Playlist hinzugefügt:" [LVal data]])
  | Throw e =>
      (Throw e, this,
       [console_log ("Füge Video " +:+ videoId +:+ " zu Playlist " +:+ playlistId +:+ " hinzu") [];
        api_request (playlistItems_insert "snippet" playlistId "youtube#video" videoId)]
       ++ catch_trace "Fehler beim Hinzufügen zur Playlist:" e)
  end.
Proof.
  unfold run, addVideoToPlaylist, try_catch, mbind, M_bind, emit, lift, mret, M_ret.
  destruct (remote_playlistItems_insert w playlistId videoId) as [data|e]; cbv beta iota zeta.
  - reflexivity.
  - rewrite log_and_rethrow_run. reflexivity.
Qed.

(** The shape shared by the two list operations. *)
Lemma listing_run (label msg suffix : string) (c : api_call) (answer : outcome listing)
    (this : instance) :
  run (try_catch
         (emit (console_log msg []);;
          emit (api_request c);;
          data ← lift answer;
          n ← lift (items_length data);
          emit (console_log (Number_toString n +:+ suffix) []);;
          mret (items data))
         (log_and_rethrow label)) this =
  match answer with
  | Return data =>
      match items_length data with
      | Return n =>
          (Return (items data), this,
           [console_log msg []; api_request c; console_log (Number_toString n +:+ suffix) []])
      | Throw e =>
          (Throw e, this, [console_log msg []; api_request c] ++ catch_trace label e)
      end
  | Throw e => (Throw e, this, [console_log msg []; api_request c] ++ catch_trace label e)
  end.
Proof.
  unfold run, try_catch, mbind, M_bind, emit, lift, mret, M_ret.
  destruct answer as [data|e]; cbv beta iota zeta.
  - destruct (items_length data) as [n|e]; cbv beta iota zeta.
    + reflexivity.
    + rewrite log_and_rethrow_run. reflexivity.
  - rewrite log_and_rethrow_run. reflexivity.
Qed.

Lemma getUploadQuota_full_run (this : instance) :
  run (getUploadQuota w) this =
  match remote_channels_list w with
  | Return data =>
      match items data with
      | Some (channel :: _) =>
          match quota_literal channel with
          | Return q =>
              (Return q, this,
               [console_log "Lade Upload-Quota..." [];
                api_request (channels_list "contentDetails,statistics" true);
                console_log "Quota-Infos geladen:" [LVal channel]])
          | Throw e =>
              (Throw e, this,
               [console_log "Lade Upload-Quota..." [];
                api_request (channels_list "contentDetails,statistics" true);
                console_log "Quota-Infos geladen:" [LVal channel]]
               ++ catch_trace "Fehler beim Laden der Upload-Quota:" e)
          end
      | _ =>
          (Throw (new_Error "Kein Kanal gefunden"), this,
           [console_log "Lade Upload-Quota..." [];
            api_request (channels_list "contentDetails,statistics" true)]
           ++ catch_trace "Fehler beim Laden der Upload-Quota:" (new_Error "Kein Kanal gefunden"))
      end
  | Throw e =>
      (Throw e, this,
       [console_log "Lade Upload-Quota..." [];
        api_request (channels_list "contentDetails,statistics" true)]
       ++ catch_trace "Fehler beim Laden der Upload-Quota:" e)
  end.
Proof.
  unfold run, getUploadQuota, try_catch, mbind, M_bind, emit, lift, mret, M_ret, throw.
  destruct (remote_channels_list w) as [data|e]; cbv beta iota zeta.
  - destruct (items data) as [[|channel rest]|]; cbv beta iota zeta.
    + rewrite log_and_rethrow_run. reflexivity.
    + destruct (quota_literal channel) as [q|e]; cbv beta iota zeta.
      * reflexivity.
      * rewrite log_and_rethrow_run. reflexivity.
    + rewrite log_and_rethrow_run. reflexivity.
  - rewrite log_and_rethrow_run. reflexivity.
Qed.

End MoreRuns.

(** ** Further properties of the operations *)

Section Operations.

Variable Number_toString : number -> string.
Variable Date_timeValue : value -> option Z.
Variable w : world.

Lemma catch_trace_head (label : string) (e : error) (prefix : list effect) :
  console_error label [LError e] ∈ prefix ++ catch_trace label e.
Proof. apply elem_of_app. right. unfold catch_trace. left. Qed.

Lemma setThumbnail_missing (videoId path : string) (this : instance) :
  files w !! path = None ->
  run (setThumbnail w videoId path) this =
  (Throw (new_Error ("Thumbnail-Datei nicht gefunden: " +:+ path)), this,
   catch_trace "Thumbnail-Fehler:" (new_Error ("Thumbnail-Datei nicht gefunden: " +:+ path))).
Proof.
  intros Hf. unfold run, setThumbnail, try_catch.
  unfold mbind at 1. unfold M_bind at 1. rewrite (existsSync_false _ _ Hf).
  cbn [negb]. unfold throw at 1. cbv beta iota zeta.
  rewrite log_and_rethrow_run. reflexivity.
Qed.

(** X1: a failure of the remote call comes out of each of the six
    operations as the very same error, after the catch block has written it
    to the console under the operation's label. *)
Theorem remote_errors_propagate_unchanged (e : error) (this : instance) :
  (forall (path : string) (md : gmap string value) (has_callback : bool) (size : Z)
          (req : RequestMetadata),
      files w !! path = Some size ->
      requestMetadata Date_timeValue md = Return req ->
      (remote_videos_insert w req path).2 = Throw e ->
      let r := run (uploadVideo Number_toString Date_timeValue w path md has_callback) this in
      result r = Throw e /\ console_error "Upload-Fehler:" [LError e] ∈ trace r)
  /\ (forall (videoId path : string) (size : Z),
      files w !! path = Some size ->
      remote_thumbnails_set w videoId path = Throw e ->
      let r := run (setThumbnail w videoId path) this in
      result r = Throw e /\ console_error "Thumbnail-Fehler:" [LError e] ∈ trace r)
  /\ (forall (regionCode : option string),
      remote_videoCategories_list w (default "DE" regionCode) = Throw e ->
      let r := run (getVideoCategories Number_toString w regionCode) this in
      result r = Throw e /\ console_error "Fehler beim Laden der Kategorien:" [LError e] ∈ trace r)
  /\ (remote_playlists_list w 50 = Throw e ->
      let r := run (getMyPlaylists Number_toString w) this in
      result r = Throw e /\ console_error "Fehler beim Laden der Playlists:" [LError e] ∈ trace r)
  /\ (forall (videoId playlistId : string),
      remote_playlistItems_insert w playlistId videoId = Throw e ->
      let r := run (addVideoToPlaylist w videoId playlistId) this in
      result r = Throw e
      /\ console_error "Fehler beim Hinzufügen zur Playlist:" [LError e] ∈ trace r)
  /\ (remote_channels_list w = Throw e ->
      let r := run (getUploadQuota w) this in
      result r = Throw e
      /\ console_error "Fehler beim Laden der Upload-Quota:" [LError e] ∈ trace r).
Proof.
  repeat split.
  - rewrite (uploadVideo_run _ _ _ _ _ _ _ _ _ H H0), H1. reflexivity.
  - rewrite (uploadVideo_run _ _ _ _ _ _ _ _ _ H H0), H1. apply catch_trace_head.
  - rewrite (setThumbnail_run _ _ _ _ _ H), H0. reflexivity.
  - rewrite (setThumbnail_run _ _ _ _ _ H), H0. apply catch_trace_head.
  - unfold getVideoCategories. rewrite listing_run, H. reflexivity.
  - unfold getVideoCategories. rewrite listing_run, H. apply catch_trace_head.
  - unfold getMyPlaylists. rewrite listing_run, H. reflexivity.
  - unfold getMyPlaylists. rewrite listing_run, H. apply catch_trace_head.
  - rewrite addVideoToPlaylist_run, H. reflexivity.
  - rewrite addVideoToPlaylist_run, H. apply catch_trace_head.
  - rewrite getUploadQuota_full_run, H. reflexivity.
  - rewrite getUploadQuota_full_run, H. apply catch_trace_head.
Qed.

(** X2: the catch block never replaces the error it caught: it throws
    that error again, leaves the instance alone, issues no request, and
    writes the error's response data to the console exactly when the error
    has a truthy [response]. *)
Theorem catch_block_rethrows_and_logs_response (A : Type) (label : string) (e : error)
    (this : instance) :
  let r := run (log_and_rethrow (A := A) label e) this in
  result r = Throw e
  /\ final r = this
  /\ requests (trace r) = []
  /\ console_error label [LError e] ∈ trace r
  /\ forall d : value,
      console_error "API-Fehlerantwort:" [LVal d] ∈ trace r
      <-> JS.truthy (err_response e) = true /\ JS.get (err_response e) "data" = Return d.
Proof.
  intros r. subst r. unfold run. rewrite log_and_rethrow_run.
  split; [reflexivity|]. split; [reflexivity|]. split; [apply requests_catch_trace|].
  split; [apply (catch_trace_head label e [])|].
  intros d. unfold trace, catch_trace. cbn [snd].
  destruct (JS.truthy (err_response e)) eqn:Ht.
  - destruct (JS.get (err_response e) "data") as [d'|e'] eqn:Hg.
    + split.
      * intros [H|H]%elem_of_cons; [discriminate H|].
        apply list_elem_of_singleton in H. injection H as ->. split; reflexivity.
      * intros [_ H]. injection H as ->. right. left.
    + exfalso. destruct (err_response e); cbn in Ht, Hg; discriminate.
  - split.
    + intros H. apply list_elem_of_singleton in H. discriminate H.
    + intros [H _]. discriminate H.
Qed.

(** X3: a successful remote answer is what [uploadVideo], [setThumbnail]
    and [addVideoToPlaylist] return, as it is; each has issued exactly one
    request, which carries the arguments of the call. *)
Theorem successful_answers_returned_unchanged (data : value) (this : instance) :
  (forall (path : string) (md : gmap string value) (has_callback : bool) (size : Z)
          (req : RequestMetadata),
      files w !! path = Some size ->
      requestMetadata Date_timeValue md = Return req ->
      (remote_videos_insert w req path).2 = Return data ->
      let r := run (uploadVideo Number_toString Date_timeValue w path md has_callback) this in
      result r = Return data
      /\ requests (trace r) = [api_request (videos_insert "snippet,status" req path)]
      /\ last (trace r) = Some (console_log "Video erfolgreich hochgeladen:" [LVal data]))
  /\ (forall (videoId path : string) (size : Z),
      files w !! path = Some size ->
      remote_thumbnails_set w videoId path = Return data ->
      let r := run (setThumbnail w videoId path) this in
      result r = Return data
      /\ requests (trace r) = [api_request (thumbnails_set videoId path)]
      /\ last (trace r) = Some (console_log "Thumbnail erfolgreich gesetzt:" [LVal data]))
  /\ (forall (videoId playlistId : string),
      remote_playlistItems_insert w playlistId videoId = Return data ->
      let r := run (addVideoToPlaylist w videoId playlistId) this in
      result r = Return data
      /\ requests (trace r)
         = [api_request (playlistItems_insert "snippet" playlistId "youtube#video" videoId)]
      /\ last (trace r)
         = Some (console_log "Video erfolgreich zur Playlist hinzugefügt:" [LVal data])).
Proof.
  split; [|split].
  - intros path md has_callback size req Hf Hr Ha r. subst r.
    split; [|split].
    + rewrite (uploadVideo_run _ _ _ _ _ _ _ _ _ Hf Hr), Ha. reflexivity.
    + now apply uploadVideo_requests with (size := size).
    + rewrite (uploadVideo_run _ _ _ _ _ _ _ _ _ Hf Hr), Ha. unfold trace. cbn [snd].
      apply last_snoc.
  - intros videoId path size Hf Ha r. subst r.
    rewrite (setThumbnail_run _ _ _ _ _ Hf), Ha. repeat split.
  - intros videoId playlistId Ha r. subst r.
    rewrite addVideoToPlaylist_run, Ha. repeat split.
Qed.

End Operations.

Section OperationEdges.

Variable Number_toString : number -> string.
Variable Date_timeValue : value -> option Z.
Variable w : world.

(** X4: an upload of an existing file opens the read stream, logs the
    request body and issues the request, in this order; every progress
    callback comes after the request and before the closing console output;
    nothing after the request is a request or a stream.  [setThumbnail]
    likewise opens its stream before its single request. *)
Theorem streams_open_before_the_request (this : instance) :
  (forall (path : string) (md : gmap string value) (has_callback : bool) (size : Z)
          (req : RequestMetadata),
      files w !! path = Some size ->
      requestMetadata Date_timeValue md = Return req ->
      exists (snapshots : list Snapshot.t) (closing : list effect),
        trace (run (uploadVideo Number_toString Date_timeValue w path md has_callback) this)
        = [createReadStream path;
           console_log "Starte Video-Upload mit Metadaten:" [LRequest req];
           api_request (videos_insert "snippet,status" req path)]
          ++ map progressCallback snapshots ++ closing
        /\ callbacks closing = []
        /\ Forall (fun ef => exists msg args, ef = console_log msg args \/ ef = console_error msg args)
             closing)
  /\ (forall (videoId path : string) (size : Z),
      files w !! path = Some size ->
      exists closing : list effect,
        trace (run (setThumbnail w videoId path) this)
        = [console_log ("Setze Thumbnail für Video " +:+ videoId +:+ ": " +:+ path) [];
           createReadStream path;
           api_request (thumbnails_set videoId path)] ++ closing
        /\ Forall (fun ef => exists msg args, ef = console_log msg args \/ ef = console_error msg args)
             closing).
Proof.
  assert (Hcatch : forall label e,
             Forall (fun ef => exists msg args, ef = console_log msg args \/ ef = console_error msg args)
               (catch_trace label e)).
  { intros label e. unfold catch_trace. constructor; [eauto|].
    destruct (JS.truthy (err_response e)); [|constructor].
    destruct (JS.get (err_response e) "data"); repeat constructor; eauto. }
  split.
  - intros path md has_callback size req Hf Hr.
    rewrite (uploadVideo_run _ _ _ _ _ _ _ _ _ Hf Hr). unfold upload_head.
    exists (if has_callback
            then emitted_snapshots Number_toString (of_Z size) (Date_now w) (of_Z 0)
                   (remote_videos_insert w req path).1
            else []).
    destruct (remote_videos_insert w req path).2 as [data|e].
    + exists [console_log "Video erfolgreich hochgeladen:" [LVal data]].
      split; [|split; [reflexivity|repeat constructor; eauto]].
      unfold trace. cbn [snd]. rewrite <- app_assoc. destruct has_callback; reflexivity.
    + exists (catch_trace "Upload-Fehler:" e).
      split; [|split; [apply callbacks_catch_trace|apply Hcatch]].
      unfold trace. cbn [snd]. rewrite <- app_assoc. destruct has_callback; reflexivity.
  - intros videoId path size Hf. rewrite (setThumbnail_run _ _ _ _ _ Hf).
    destruct (remote_thumbnails_set w videoId path) as [data|e].
    + exists [console_log "Thumbnail erfolgreich gesetzt:" [LVal data]].
      split; [reflexivity|repeat constructor; eauto].
    + exists (catch_trace "Thumbnail-Fehler:" e). split; [reflexivity|apply Hcatch].
Qed.

(** X5: when the remote service answers a list call without an [items]
    array, [getVideoCategories] and [getMyPlaylists] do not return an empty
    list: reading [items.length] throws a TypeError, which the catch block
    logs and throws on, the single request having been issued. *)
Theorem listing_without_items_throws_TypeError (this : instance) :
  (forall regionCode : option string,
      remote_videoCategories_list w (default "DE" regionCode) = Return {| items := None |} ->
      let r := run (getVideoCategories Number_toString w regionCode) this in
      (exists e, result r = Throw e /\ err_kind e = TypeError
                 /\ console_error "Fehler beim Laden der Kategorien:" [LError e] ∈ trace r)
      /\ requests (trace r)
         = [api_request (videoCategories_list "snippet" (default "DE" regionCode))])
  /\ (remote_playlists_list w 50 = Return {| items := None |} ->
      let r := run (getMyPlaylists Number_toString w) this in
      (exists e, result r = Throw e /\ err_kind e = TypeError
                 /\ console_error "Fehler beim Laden der Playlists:" [LError e] ∈ trace r)
      /\ requests (trace r) = [api_request (playlists_list "snippet" true 50)]).
Proof.
  split.
  - intros regionCode Ha r. subst r. split; [|apply (listing_requests _ (list value))].
    unfold getVideoCategories. rewrite listing_run, Ha. cbn [items_length items].
    eexists. split; [reflexivity|]. split; [reflexivity|apply catch_trace_head].
  - intros Ha r. subst r. split; [|apply (listing_requests _ (list value))].
    unfold getMyPlaylists. rewrite listing_run, Ha. cbn [items_length items].
    eexists. split; [reflexivity|]. split; [reflexivity|apply catch_trace_head].
Qed.

(** X6: [getUploadQuota] looks at the first channel only, and a first
    channel that is [null], or an object without the [statistics] part or
    without the [contentDetails] part, makes it fail with a TypeError (not
    with the no-channel error); a missing [id] or [contentRatings] only
    makes that field [undefined]. *)
Theorem getUploadQuota_first_channel_only (data : listing) (channel : value)
    (rest : list value) (this : instance) :
  remote_channels_list w = Return data ->
  items data = Some (channel :: rest) ->
  let r := run (getUploadQuota w) this in
  result r = quota_literal channel
  /\ console_log "Quota-Infos geladen:" [LVal channel] ∈ trace r
  /\ (channel = VNull
      \/ (exists o, channel = VObj o
                   /\ (o !! "statistics" = None \/ o !! "contentDetails" = None)) ->
      exists e, result r = Throw e /\ err_kind e = TypeError)
  /\ (forall o st cd, channel = VObj o ->
        o !! "statistics" = Some (VObj st) -> o !! "contentDetails" = Some (VObj cd) ->
        o !! "id" = None -> cd !! "contentRatings" = None ->
        result r = Return {| channelId := VUndefined;
                             totalVideos := JS.prop st "videoCount";
                             quotaInfo := VUndefined |}).
Proof.
  intros Hd Hi r.
  assert (Hres : result r = quota_literal channel).
  { subst r. rewrite getUploadQuota_full_run, Hd, Hi.
    destruct (quota_literal channel); reflexivity. }
  split; [exact Hres|]. split.
  { subst r. rewrite getUploadQuota_full_run, Hd, Hi.
    destruct (quota_literal channel); unfold trace; cbn [snd].
    - right. right. left.
    - right. right. left. }
  split.
  - rewrite Hres. intros [->|(o & -> & [Hs|Hc])].
    + eexists. split; reflexivity.
    + unfold quota_literal. cbn [JS.get mbind outcome_bind].
      rewrite (prop_absent _ _ Hs). eexists. split; reflexivity.
    + unfold quota_literal. cbn [JS.get mbind outcome_bind].
      rewrite (prop_absent _ _ Hc).
      destruct (get_cases (JS.prop o "statistics") "videoCount") as [[x ->]|(e & -> & He)].
      * eexists. split; reflexivity.
      * exists e. split; [reflexivity|exact He].
  - intros o st cd -> Hs Hc Hid Hcr. rewrite Hres.
    unfold quota_literal. cbn [JS.get mbind outcome_bind mret outcome_ret].
    rewrite (prop_present _ _ _ Hs), (prop_present _ _ _ Hc), (prop_absent _ _ Hid).
    cbn [JS.get mbind outcome_bind mret outcome_ret].
    now rewrite (prop_absent _ _ Hcr).
Qed.

(** X7: none of the operations writes to the instance, and none issues
    more than one remote request, however it ends. *)
Theorem operations_keep_the_instance_and_issue_one_request_at_most (this : instance) :
  (forall path md has_callback,
      let r := run (uploadVideo Number_toString Date_timeValue w path md has_callback) this in
      final r = this /\ (length (requests (trace r)) <= 1)%nat)
  /\ (forall videoId path,
      let r := run (setThumbnail w videoId path) this in
      final r = this /\ (length (requests (trace r)) <= 1)%nat)
  /\ (forall regionCode,
      let r := run (getVideoCategories Number_toString w regionCode) this in
      final r = this /\ (length (requests (trace r)) <= 1)%nat)
  /\ (let r := run (getMyPlaylists Number_toString w) this in
      final r = this /\ (length (requests (trace r)) <= 1)%nat)
  /\ (forall videoId playlistId,
      let r := run (addVideoToPlaylist w videoId playlistId) this in
      final r = this /\ (length (requests (trace r)) <= 1)%nat)
  /\ (let r := run (getUploadQuota w) this in
      final r = this /\ (length (requests (trace r)) <= 1)%nat).
Proof.
  split; [|split; [|split; [|split; [|split]]]].
  - intros path md has_callback r. subst r.
    destruct (files w !! path) as [size|] eqn:Hf.
    + destruct (requestMetadata Date_timeValue md) as [req|e] eqn:Hr.
      * rewrite (uploadVideo_requests _ _ _ _ _ _ _ _ _ Hf Hr).
        rewrite (uploadVideo_run _ _ _ _ _ _ _ _ _ Hf Hr).
        destruct (remote_videos_insert w req path).2; split; (reflexivity || (cbn; lia)).
      * rewrite (uploadVideo_bad_request _ _ _ _ _ _ _ _ _ Hf Hr).
        unfold trace, final. cbn [fst snd]. rewrite requests_catch_trace.
        split; [reflexivity|cbn; lia].
    + rewrite (uploadVideo_missing _ _ _ _ _ _ _ Hf). split; [reflexivity|cbn; lia].
  - intros videoId path r. subst r.
    destruct (files w !! path) as [size|] eqn:Hf.
    + rewrite (setThumbnail_run _ _ _ _ _ Hf).
      destruct (remote_thumbnails_set w videoId path); unfold trace, final; cbn [fst snd];
        rewrite ?requests_app, ?requests_catch_trace; split; (reflexivity || (cbn; lia)).
    + rewrite (setThumbnail_missing _ _ _ _ Hf). unfold trace, final. cbn [fst snd].
      rewrite requests_catch_trace. split; [reflexivity|cbn; lia].
  - intros regionCode r. subst r. unfold getVideoCategories. rewrite listing_run.
    destruct (remote_videoCategories_list w (default "DE" regionCode)) as [d|e];
      [destruct (items_length d)|]; unfold trace, final; cbn [fst snd];
      rewrite ?requests_app, ?requests_catch_trace; split; (reflexivity || (cbn; lia)).
  - intros r. subst r. unfold getMyPlaylists. rewrite listing_run.
    destruct (remote_playlists_list w 50) as [d|e];
      [destruct (items_length d)|]; unfold trace, final; cbn [fst snd];
      rewrite ?requests_app, ?requests_catch_trace; split; (reflexivity || (cbn; lia)).
  - intros videoId playlistId r. subst r. rewrite addVideoToPlaylist_run.
    destruct (remote_playlistItems_insert w playlistId videoId); unfold trace, final;
      cbn [fst snd]; rewrite ?requests_app, ?requests_catch_trace;
      split; (reflexivity || (cbn; lia)).
  - intros r. subst r. rewrite getUploadQuota_full_run.
    destruct (remote_channels_list w) as [d|e];
      [destruct (items d) as [[|c l]|]; [|destruct (quota_literal c)|]|];
      unfold trace, final; cbn [fst snd]; rewrite ?requests_app, ?requests_catch_trace;
      split; (reflexivity || (cbn; lia)).
Qed.

End OperationEdges.

(** ** Further properties of the request body *)

Section RequestBody.

Variable Number_toString : number -> string.
Variable Date_timeValue : value -> option Z.


(** X9: the body carries [publishAt] exactly when the metadata's
    [publishAt] is truthy (so 0, the empty text and [null] schedule
    nothing), and [commentModerationStatus] is either left out or
    'disabled', the latter exactly when the metadata has an own
    [allowComments] entry with a falsy value. *)
Theorem optional_status_fields (md : gmap string value) (req : RequestMetadata) :
  requestMetadata Date_timeValue md = Return req ->
  (publishAt (status req) = None <-> JS.truthy (JS.prop md "publishAt") = false)
  /\ (commentModerationStatus (status req) = Some "disabled"
      <-> exists v, md !! "allowComments" = Some v /\ JS.truthy v = false)
  /\ (commentModerationStatus (status req) = None
      \/ commentModerationStatus (status req) = Some "disabled").
Proof.
  intros Hr. destruct (requestMetadata_inv _ md req Hr) as (_ & _ & _ & _ & _ & Hp & Hc & _).
  split; [|split].
  - destruct (JS.truthy (JS.prop md "publishAt")).
    + destruct Hp as (s & _ & ->). split; discriminate.
    + rewrite Hp. split; reflexivity.
  - rewrite Hc. unfold JS.prop.
    destruct (md !! "allowComments") as [v|] eqn:Hv.
    + rewrite bool_decide_eq_true_2 by eauto. cbn [default from_option id andb].
      destruct (JS.truthy v) eqn:Ht; cbn [negb andb].
      * split; [discriminate|]. intros (v' & Hv' & Ht'). injection Hv' as <-. congruence.
      * split; [intros _; exists v; split; [reflexivity|exact Ht]|reflexivity].
    + rewrite bool_decide_eq_false_2 by (intros [x Hx]; discriminate Hx). cbn [andb].
      split; [discriminate|]. intros (v' & Hv' & _). discriminate Hv'.
  - rewrite Hc.
    destruct (bool_decide (is_Some (md !! "allowComments"))
              && negb (JS.truthy (JS.prop md "allowComments")));
      [right|left]; reflexivity.
Qed.

Lemma or_truthy (a d : value) : JS.truthy d = true -> JS.truthy (JS.or a d) = true.
Proof. intros Hd. unfold JS.or. destruct (JS.truthy a) eqn:Ha; assumption. Qed.

Lemma or_truthy_or_default (a d : value) : JS.truthy (JS.or a d) = true \/ JS.or a d = d.
Proof. unfold JS.or. destruct (JS.truthy a) eqn:Ha; [left; exact Ha|right; reflexivity]. Qed.

(** X10: whatever the metadata, a built body has a truthy title, tags,
    category, languages and privacy status (never an empty text, 0, [null]
    or [undefined]); its two language fields are equal; its description is
    truthy or the empty text, and its made-for-kids flag truthy or
    [false]. *)
Theorem body_fields_are_never_empty (md : gmap string value) (req : RequestMetadata) :
  requestMetadata Date_timeValue md = Return req ->
  JS.truthy (title (snippet req)) = true
  /\ JS.truthy (tags (snippet req)) = true
  /\ JS.truthy (categoryId (snippet req)) = true
  /\ JS.truthy (defaultLanguage (snippet req)) = true
  /\ defaultAudioLanguage (snippet req) = defaultLanguage (snippet req)
  /\ JS.truthy (privacyStatus (status req)) = true
  /\ (JS.truthy (description (snippet req)) = true \/ description (snippet req) = VStr EmptyString)
  /\ (JS.truthy (selfDeclaredMadeForKids (status req)) = true
      \/ selfDeclaredMadeForKids (status req) = VBool false).
Proof.
  intros Hr. destruct (requestMetadata_inv _ md req Hr) as (Hs & Hp & _ & _ & Hk & _).
  rewrite Hs, Hp, Hk. unfold requestMetadata_literal.
  cbn [snippet status title description tags categoryId defaultLanguage defaultAudioLanguage
       privacyStatus selfDeclaredMadeForKids].
  repeat split; try (apply or_truthy; reflexivity); apply or_truthy_or_default.
Qed.

(** X11: a value the metadata supplies is passed on as it is when it is
    truthy, and replaced by the default when it is falsy (an empty title
    becomes 'Untitled Video', a [null] privacy 'private'); [language] feeds
    both language fields. *)
Theorem supplied_values_pass_through_unless_falsy (md : gmap string value)
    (req : RequestMetadata) :
  requestMetadata Date_timeValue md = Return req ->
  (forall v, md !! "title" = Some v ->
     title (snippet req) = if JS.truthy v then v else VStr "Untitled Video")
  /\ (forall v, md !! "description" = Some v ->
     description (snippet req) = if JS.truthy v then v else VStr EmptyString)
  /\ (forall v, md !! "tags" = Some v ->
     tags (snippet req) = if JS.truthy v then v else VArr [])
  /\ (forall v, md !! "categoryId" = Some v ->
     categoryId (snippet req) = if JS.truthy v then v else VStr "22")
  /\ (forall v, md !! "language" = Some v ->
     defaultLanguage (snippet req) = (if JS.truthy v then v else VStr "de")
     /\ defaultAudioLanguage (snippet req) = (if JS.truthy v then v else VStr "de"))
  /\ (forall v, md !! "privacy" = Some v ->
     privacyStatus (status req) = if JS.truthy v then v else VStr "private")
  /\ (forall v, md !! "madeForKids" = Some v ->
     selfDeclaredMadeForKids (status req) = if JS.truthy v then v else VBool false).
Proof.
  intros Hr. destruct (requestMetadata_inv _ md req Hr) as (Hs & Hp & _ & _ & Hk & _).
  rewrite Hs, Hp, Hk. unfold requestMetadata_literal, JS.or.
  cbn [snippet status title description tags categoryId defaultLanguage defaultAudioLanguage
       privacyStatus selfDeclaredMadeForKids].
  split; [|split; [|split; [|split; [|split; [|split]]]]];
    intros v Hv; rewrite (prop_present _ _ _ Hv); first [reflexivity|split; reflexivity].
Qed.

(** X12: embedding and public statistics are switched off by the boolean
    [false] only: the body's flag is false exactly when the metadata's own
    entry is [false]; 0, [null], the empty text or a missing entry leave it
    true. *)
Theorem flags_are_cleared_by_false_only (md : gmap string value) (req : RequestMetadata) :
  requestMetadata Date_timeValue md = Return req ->
  (embeddable (status req) = false <-> md !! "embeddable" = Some (VBool false))
  /\ (publicStatsViewable (status req) = false
      <-> md !! "publicStatsViewable" = Some (VBool false)).
Proof.
  intros Hr. destruct (requestMetadata_inv _ md req Hr) as (_ & _ & He & Hv & _).
  rewrite He, Hv. unfold requestMetadata_literal, JS.prop.
  cbn [status embeddable publicStatsViewable].
  split.
  - destruct (md !! "embeddable") as [[| |[]| | | |]|]; cbn; split; congruence.
  - destruct (md !! "publicStatsViewable") as [[| |[]| | | |]|]; cbn; split; congruence.
Qed.

End RequestBody.

(** ** Further properties of the progress reporter *)

Section Reporter.

Variable Number_toString : number -> string.
Variable Date_timeValue : value -> option Z.
Variable w : world.

(** Each reported snapshot belongs to an event whose percentage exceeds
    the value the reporter started from. *)
Lemma emitted_snapshots_elem_gt (fileSize : number) (startTime : Z)
    (evts : list progress_event) (last : number) (s : Snapshot.t) :
  s ∈ emitted_snapshots Number_toString fileSize startTime last evts ->
  exists evt, evt ∈ evts /\ s = make_snapshot Number_toString fileSize startTime evt
              /\ lt last (currentProgress fileSize evt) = true.
Proof.
  revert last. induction evts as [|evt evts IH]; intros last; cbn [emitted_snapshots].
  - intros H. inversion H.
  - destruct (gt (currentProgress fileSize evt) last) eqn:Hgt.
    + intros [->|H]%elem_of_cons.
      * exists evt. split; [left|]. split; [reflexivity|exact Hgt].
      * destruct (IH _ H) as (e & He & Hs & Hlt). exists e. split; [now right|].
        split; [exact Hs|]. exact (lt_trans _ _ _ Hgt Hlt).
    + intros H. destruct (IH _ H) as (e & He & Hs). exists e. split; [now right|exact Hs].
Qed.

Lemma emitted_snapshots_length (fileSize : number) (startTime : Z)
    (evts : list progress_event) (last : number) :
  (length (emitted_snapshots Number_toString fileSize startTime last evts) <= length evts)%nat.
Proof.
  revert last. induction evts as [|evt evts IH]; intros last; cbn [emitted_snapshots length];
    [lia|].
  destruct (gt (currentProgress fileSize evt) last); cbn [length].
  - specialize (IH (currentProgress fileSize evt)). lia.
  - specialize (IH last). lia.
Qed.

(** [lastReportedProgress] is the percentage of the snapshot reported
    last, or still the initial value. *)
Lemma last_reported_last (fileSize : number) (startTime : Z) (evts : list progress_event)
    (last0 : number) :
  last_reported fileSize last0 evts =
  from_option Snapshot.progress last0
    (last (emitted_snapshots Number_toString fileSize startTime last0 evts)).
Proof.
  revert last0. induction evts as [|evt evts IH]; intros last0;
    cbn [last_reported emitted_snapshots]; [reflexivity|].
  destruct (gt (currentProgress fileSize evt) last0).
  - rewrite IH, last_cons.
    destruct (last (emitted_snapshots Number_toString fileSize startTime
                      (currentProgress fileSize evt) evts)); cbn [from_option];
      [reflexivity|now rewrite progress_make_snapshot].
  - apply IH.
Qed.

(** What does not exceed [lastReportedProgress] never will. *)
Lemma last_reported_keeps_bound (fileSize : number) (evts : list progress_event)
    (last0 x : number) :
  gt x last0 = false -> gt x (last_reported fileSize last0 evts) = false.
Proof.
  revert last0. induction evts as [|evt evts IH]; intros last0 Hx; cbn [last_reported];
    [exact Hx|].
  apply IH. destruct (gt (currentProgress fileSize evt) last0) eqn:Hgt; [|exact Hx].
  destruct (gt x (currentProgress fileSize evt)) eqn:Hx'; [|reflexivity].
  pose proof (lt_trans _ _ _ Hgt Hx') as Hlt. unfold gt, lt in *. congruence.
Qed.

Lemma last_reported_dominates (fileSize : number) (evts : list progress_event)
    (last0 : number) (evt : progress_event) :
  evt ∈ evts ->
  gt (currentProgress fileSize evt) (last_reported fileSize last0 evts) = false.
Proof.
  revert last0. induction evts as [|e evts IH]; intros last0 Hin; [inversion Hin|].
  cbn [last_reported]. apply elem_of_cons in Hin. destruct Hin as [->|Hin]; [|now apply IH].
  apply last_reported_keeps_bound.
  destruct (gt (currentProgress fileSize e) last0) eqn:Hgt; [|exact Hgt].
  apply lt_irrefl.
Qed.

Lemma filter_app_effects (P : effect -> bool) (t1 t2 : list effect) :
  List.filter P (t1 ++ t2) = List.filter P t1 ++ List.filter P t2.
Proof. apply List.filter_app. Qed.

(** X13: the progress callback is optional, and leaving it out changes
    nothing else: the upload returns or fails the same way, issues the same
    request, and its effects are those of the upload with a callback minus
    the callbacks. *)
Theorem progress_callback_is_optional (path : string) (md : gmap string value)
    (this : instance) :
  let r1 := run (uploadVideo Number_toString Date_timeValue w path md true) this in
  let r0 := run (uploadVideo Number_toString Date_timeValue w path md false) this in
  result r0 = result r1
  /\ final r0 = final r1
  /\ callbacks (trace r0) = []
  /\ trace r0
     = List.filter (fun ef => match ef with progressCallback _ => false | _ => true end)
         (trace r1).
Proof.
  intros r1 r0. subst r0 r1.
  set (keep := fun ef => match ef with progressCallback _ => false | _ => true end).
  assert (Hcatch : forall label e, List.filter keep (catch_trace label e) = catch_trace label e).
  { intros label e. unfold catch_trace. cbn [List.filter keep].
    destruct (JS.truthy (err_response e)); [|reflexivity].
    destruct (JS.get (err_response e) "data"); reflexivity. }
  assert (Hprog : forall l, List.filter keep (map progressCallback l) = []).
  { induction l as [|x l IH]; [reflexivity|exact IH]. }
  destruct (files w !! path) as [size|] eqn:Hf.
  - destruct (requestMetadata Date_timeValue md) as [req|e] eqn:Hr.
    + rewrite !(uploadVideo_run _ _ _ _ _ _ _ _ _ Hf Hr). unfold upload_head.
      destruct (remote_videos_insert w req path).2 as [data|e]; unfold trace, result, final;
        cbn [fst snd]; rewrite !filter_app_effects, Hprog, ?Hcatch, !callbacks_app,
        ?callbacks_catch_trace; repeat split.
    + rewrite !(uploadVideo_bad_request _ _ _ _ _ _ _ _ _ Hf Hr). unfold trace. cbn [snd].
      rewrite Hcatch, callbacks_catch_trace. repeat split.
  - rewrite !(uploadVideo_missing _ _ _ _ _ _ _ Hf). repeat split.
Qed.

(** X14: every percentage handed to the callback is greater than 0 (so
    never 0, negative or NaN), and an upload hands over at most one snapshot
    per progress event. *)
Theorem reported_percentages_are_positive (path : string) (md : gmap string value)
    (has_callback : bool) (this : instance) :
  let snapshots :=
    callbacks (trace (run (uploadVideo Number_toString Date_timeValue w path md has_callback) this)) in
  Forall (fun s => gt (Snapshot.progress s) (of_Z 0) = true /\ Snapshot.progress s <> NaN)
    snapshots
  /\ forall (size : Z) (req : RequestMetadata),
      files w !! path = Some size ->
      requestMetadata Date_timeValue md = Return req ->
      (length snapshots <= length (remote_videos_insert w req path).1)%nat.
Proof.
  intros snapshots. subst snapshots. split.
  - destruct (uploadVideo_callbacks_cases Number_toString Date_timeValue w path md has_callback this)
      as [->|(size & req & _ & _ & ->)]; [constructor|].
    destruct (emitted_snapshots_sorted Number_toString (of_Z size) (Date_now w)
                (remote_videos_insert w req path).1 (of_Z 0)) as [Hall _].
    rewrite Forall_map in Hall. eapply Forall_impl; [exact Hall|].
    intros s Hs. cbn in Hs. split; [exact Hs|exact (gt_not_NaN _ _ Hs)].
  - intros size req Hf Hr. rewrite (uploadVideo_callbacks _ _ _ _ _ _ _ _ _ Hf Hr).
    destruct has_callback; [apply emitted_snapshots_length|cbn; lia].
Qed.

(** X15: no progress event of an upload has a percentage greater than
    that of the snapshot reported last; when nothing was reported, none has
    a percentage greater than 0. *)
Theorem last_snapshot_has_the_highest_percentage (path : string) (md : gmap string value)
    (this : instance) (size : Z) (req : RequestMetadata) (evt : progress_event) :
  files w !! path = Some size ->
  requestMetadata Date_timeValue md = Return req ->
  evt ∈ (remote_videos_insert w req path).1 ->
  let percentage := Math_round (mul (div (bytesRead evt) (of_Z size)) (of_Z 100)) in
  match last (callbacks (trace (run (uploadVideo Number_toString Date_timeValue w path md true)
                                    this))) with
  | Some s => gt percentage (Snapshot.progress s) = false
  | None => gt percentage (of_Z 0) = false
  end.
Proof.
  intros Hf Hr Hevt percentage. rewrite (uploadVideo_callbacks _ _ _ _ _ _ _ _ _ Hf Hr).
  pose proof (last_reported_dominates (of_Z size) _ (of_Z 0) evt Hevt) as Hdom.
  rewrite (last_reported_last (of_Z size) (Date_now w)) in Hdom.
  destruct (last (emitted_snapshots Number_toString (of_Z size) (Date_now w) (of_Z 0)
                    (remote_videos_insert w req path).1)); exact Hdom.
Qed.

(** With no bytes read the percentage is 0 or NaN, whatever the size. *)
Lemma currentProgress_zero_bytes (fileSize : number) (evt : progress_event) (sg : bool) :
  bytesRead evt = S754_zero sg ->
  gt (currentProgress fileSize evt) (of_Z 0) = false.
Proof.
  intros Hb. unfold currentProgress. rewrite Hb.
  destruct fileSize as [[]|[]| |[] m e], sg; reflexivity.
Qed.

(** X16: no snapshot is ever handed over for an event that reports zero
    bytes read, whatever the file size and whenever the event comes. *)
Theorem no_snapshot_for_zero_bytes (path : string) (md : gmap string value)
    (has_callback : bool) (this : instance) (s : Snapshot.t) (sg : bool) :
  s ∈ callbacks (trace (run (uploadVideo Number_toString Date_timeValue w path md has_callback) this)) ->
  Snapshot.bytesRead s <> S754_zero sg.
Proof.
  intros Hs Hzero.
  destruct (uploadVideo_callbacks_cases Number_toString Date_timeValue w path md has_callback this)
    as [H|(size & req & _ & _ & H)]; rewrite H in Hs; [inversion Hs|].
  destruct (emitted_snapshots_elem_gt _ _ _ _ _ Hs) as (evt & _ & -> & Hlt).
  destruct (make_snapshot_speed Number_toString (of_Z size) (Date_now w) evt) as (_ & Hb & _).
  rewrite Hb in Hzero.
  pose proof (currentProgress_zero_bytes (of_Z size) evt sg Hzero) as Hnot.
  unfold gt, lt in *. congruence.
Qed.

End Reporter.

Section RequestFrame.

Variable Date_timeValue : value -> option Z.

(** X17: the request body depends on twelve metadata keys only (the nine
    with defaults, [publishAt], [allowComments] and [hasOwnProperty]): two
    metadata objects that agree on them give the same body or the same
    failure, so any other entry a caller adds is ignored.  The twelfth key
    counts: adding an entry named [hasOwnProperty] to metadata from which a
    body is built turns the body into a TypeError. *)
Theorem requestMetadata_reads_twelve_keys (md1 md2 : gmap string value) :
  Forall (fun k => md1 !! k = md2 !! k)
         (defaulted_keys ++ ["publishAt"; "allowComments"; "hasOwnProperty"]) ->
  requestMetadata Date_timeValue md1 = requestMetadata Date_timeValue md2
  /\ (forall (k : string) (v : value),
        k ∉ defaulted_keys ++ ["publishAt"; "allowComments"; "hasOwnProperty"] ->
        requestMetadata Date_timeValue (<[k:=v]> md1) = requestMetadata Date_timeValue md1)
  /\ forall (v : value) (req : RequestMetadata),
      requestMetadata Date_timeValue md1 = Return req ->
      exists e, requestMetadata Date_timeValue (<["hasOwnProperty":=v]> md1) = Throw e
                /\ err_kind e = TypeError.
Proof.
  assert (Hagree : forall a b : gmap string value,
             Forall (fun k => a !! k = b !! k)
                    (defaulted_keys ++ ["publishAt"; "allowComments"; "hasOwnProperty"]) ->
             requestMetadata Date_timeValue a = requestMetadata Date_timeValue b).
  { intros a b H. unfold defaulted_keys in H. cbn [app] in H.
    repeat match goal with
           | H : Forall _ (_ :: _) |- _ => apply Forall_cons_1 in H; destruct H as [? H]
           end.
    unfold requestMetadata, requestMetadata_literal, JS.hasOwnProperty, JS.prop.
    repeat match goal with
           | E : a !! _ = b !! _ |- _ => rewrite E; clear E
           end.
    reflexivity. }
  intros H. split; [exact (Hagree _ _ H)|]. split.
  - intros k v Hk. apply Hagree. apply Forall_forall. intros x Hx.
    apply lookup_insert_ne. intros ->. exact (Hk Hx).
  - intros v req Hreq.
    exists (mkError TypeError "hasOwnProperty is not a function" VUndefined).
    split; [|reflexivity].
    assert (Hp : JS.prop (<["hasOwnProperty":=v]> md1) "publishAt" = JS.prop md1 "publishAt").
    { unfold JS.prop. rewrite lookup_insert_ne by discriminate. reflexivity. }
    revert Hreq. unfold requestMetadata, JS.hasOwnProperty.
    rewrite Hp, lookup_insert.
    destruct (JS.truthy (JS.prop md1 "publishAt")).
    + destruct (ISO.toISOString (Date_timeValue (JS.prop md1 "publishAt"))) as [s|e];
        [intros _; reflexivity|].
      destruct (md1 !! "hasOwnProperty"); discriminate.
    + intros _. reflexivity.
Qed.

End RequestFrame.

(** ** The further properties at concrete inputs *)

Lemma remote_errors_propagate_unchanged_witness :
  result (run (uploadVideo Sample.show_number Sample.time_value Fixtures.failing_world
                 "/videos/a.mp4" ∅ true) (constructor VNull))
  = Throw Fixtures.quota_error
  /\ result (run (getMyPlaylists Sample.show_number Fixtures.failing_world) (constructor VNull))
     = Throw Fixtures.quota_error.
Proof.
  destruct (remote_errors_propagate_unchanged Sample.show_number Sample.time_value
              Fixtures.failing_world Fixtures.quota_error (constructor VNull))
    as (Hup & _ & _ & Hpl & _).
  split.
  - exact (proj1 (Hup "/videos/a.mp4" ∅ true 1000 (requestMetadata_literal ∅)
                    eq_refl eq_refl eq_refl)).
  - exact (proj1 (Hpl eq_refl)).
Defined.

Lemma successful_answers_returned_unchanged_witness :
  result (run (uploadVideo Sample.show_number Sample.time_value Sample.the_world
                 "/videos/a.mp4" ∅ true) (constructor VNull))
  = Return (VObj {[ "id" := VStr "vid123" ]})
  /\ result (run (addVideoToPlaylist Fixtures.bare_world "vid123" "PL1") (constructor VNull))
     = Return (VObj {[ "id" := VStr "item1" ]}).
Proof.
  split.
  - exact (proj1 (proj1 (successful_answers_returned_unchanged Sample.show_number
                           Sample.time_value Sample.the_world (VObj {[ "id" := VStr "vid123" ]})
                           (constructor VNull))
                    "/videos/a.mp4" ∅ true 1000 (requestMetadata_literal ∅)
                    eq_refl eq_refl eq_refl)).
  - exact (proj1 (proj2 (proj2 (successful_answers_returned_unchanged Sample.show_number
                                  Sample.time_value Fixtures.bare_world
                                  (VObj {[ "id" := VStr "item1" ]}) (constructor VNull)))
                    "vid123" "PL1" eq_refl)).
Defined.

Lemma streams_open_before_the_request_witness :
  exists closing : list effect,
    trace (run (setThumbnail Sample.the_world "vid123" "/img/a.png") (constructor VNull))
    = [console_log ("Setze Thumbnail für Video " +:+ "vid123" +:+ ": " +:+ "/img/a.png") [];
       createReadStream "/img/a.png";
       api_request (thumbnails_set "vid123" "/img/a.png")] ++ closing.
Proof.
  destruct (proj2 (streams_open_before_the_request Sample.show_number Sample.time_value
                     Sample.the_world (constructor VNull)) "vid123" "/img/a.png" 2048 eq_refl)
    as (closing & Ht & _).
  exists closing. exact Ht.
Defined.

Lemma listing_without_items_throws_TypeError_witness :
  exists e,
    result (run (getMyPlaylists Sample.show_number Fixtures.bare_world) (constructor VNull))
    = Throw e /\ err_kind e = TypeError.
Proof.
  destruct (proj1 (proj2 (listing_without_items_throws_TypeError Sample.show_number
                            Fixtures.bare_world (constructor VNull)) eq_refl))
    as (e & He & Hk & _).
  exists e. split; [exact He|exact Hk].
Defined.

Lemma getUploadQuota_first_channel_only_witness :
  exists e,
    result (run (getUploadQuota Fixtures.bare_world) (constructor VNull)) = Throw e
    /\ err_kind e = TypeError.
Proof.
  refine (proj1 (proj2 (proj2 (getUploadQuota_first_channel_only Fixtures.bare_world
            {| items := Some [VObj {[ "id" := VStr "UC1" ]}; Sample.channel] |}
            (VObj {[ "id" := VStr "UC1" ]}) [Sample.channel] (constructor VNull)
            eq_refl eq_refl))) _).
  right. exists {[ "id" := VStr "UC1" ]}. split; [reflexivity|]. left. reflexivity.
Defined.


Lemma optional_status_fields_witness :
  publishAt (status (requestMetadata_literal
                       {[ "publishAt" := VNum (of_Z 0); "allowComments" := VBool true ]})) = None.
Proof.
  refine (proj2 (proj1 (optional_status_fields Sample.time_value
            {[ "publishAt" := VNum (of_Z 0); "allowComments" := VBool true ]}
            (requestMetadata_literal
               {[ "publishAt" := VNum (of_Z 0); "allowComments" := VBool true ]}) _)) _).
  - reflexivity.
  - reflexivity.
Defined.

Lemma body_fields_are_never_empty_witness :
  JS.truthy (title (snippet (requestMetadata_literal {[ "title" := VStr EmptyString ]}))) = true.
Proof.
  refine (proj1 (body_fields_are_never_empty Sample.time_value
            {[ "title" := VStr EmptyString ]}
            (requestMetadata_literal {[ "title" := VStr EmptyString ]}) _)).
  reflexivity.
Defined.

Lemma supplied_values_pass_through_unless_falsy_witness :
  title (snippet (requestMetadata_literal
                    {[ "title" := VStr EmptyString; "privacy" := VStr "public" ]}))
  = VStr "Untitled Video"
  /\ privacyStatus (status (requestMetadata_literal
                              {[ "title" := VStr EmptyString; "privacy" := VStr "public" ]}))
     = VStr "public".
Proof.
  assert (Hreq : requestMetadata Sample.time_value
                   {[ "title" := VStr EmptyString; "privacy" := VStr "public" ]}
                 = Return (requestMetadata_literal
                             {[ "title" := VStr EmptyString; "privacy" := VStr "public" ]}))
    by reflexivity.
  destruct (supplied_values_pass_through_unless_falsy Sample.time_value _ _ Hreq)
    as (Ht & _ & _ & _ & _ & Hp & _).
  split.
  - exact (Ht (VStr EmptyString) eq_refl).
  - exact (Hp (VStr "public") eq_refl).
Defined.

Lemma flags_are_cleared_by_false_only_witness :
  embeddable (status (requestMetadata_literal
                        {[ "embeddable" := VBool false; "publicStatsViewable" := VNum (of_Z 0) ]}))
  = false.
Proof.
  refine (proj2 (proj1 (flags_are_cleared_by_false_only Sample.time_value
            {[ "embeddable" := VBool false; "publicStatsViewable" := VNum (of_Z 0) ]}
            (requestMetadata_literal
               {[ "embeddable" := VBool false; "publicStatsViewable" := VNum (of_Z 0) ]}) _)) _).
  - reflexivity.
  - reflexivity.
Defined.

Lemma last_snapshot_has_the_highest_percentage_witness :
  match last (callbacks (trace (run (uploadVideo Sample.show_number Sample.time_value
                                       Fixtures.failing_world "/videos/a.mp4" ∅ true)
                                    (constructor VNull)))) with
  | Some s =>
      gt (Math_round (mul (div (bytesRead (Sample.evt 400 5200)) (of_Z 1000)) (of_Z 100)))
         (Snapshot.progress s) = false
  | None =>
      gt (Math_round (mul (div (bytesRead (Sample.evt 400 5200)) (of_Z 1000)) (of_Z 100)))
         (of_Z 0) = false
  end.
Proof.
  refine (last_snapshot_has_the_highest_percentage Sample.show_number Sample.time_value
            Fixtures.failing_world "/videos/a.mp4" ∅ (constructor VNull) 1000
            (requestMetadata_literal ∅) (Sample.evt 400 5200) _ _ _).
  - reflexivity.
  - reflexivity.
  - right. left.
Defined.

Lemma no_snapshot_for_zero_bytes_witness :
  Snapshot.bytesRead (make_snapshot Sample.show_number (of_Z 1000) 5000 (Sample.evt 250 5100))
  <> S754_zero false.
Proof.
  refine (no_snapshot_for_zero_bytes Sample.show_number Sample.time_value Sample.the_world
            "/videos/a.mp4" ∅ true (constructor VNull) _ false _).
  vm_compute. constructor.
Defined.

Lemma requestMetadata_reads_twelve_keys_witness :
  requestMetadata Sample.time_value {[ "title" := VStr "T"; "thumbnail" := VStr "/img/a.png" ]}
  = requestMetadata Sample.time_value {[ "title" := VStr "T" ]}.
Proof.
  refine (proj1 (requestMetadata_reads_twelve_keys Sample.time_value
            {[ "title" := VStr "T"; "thumbnail" := VStr "/img/a.png" ]}
            {[ "title" := VStr "T" ]} _)).
  repeat constructor.
Defined.

Lemma reported_percentages_are_positive_witness :
  (length (callbacks (trace (run (uploadVideo Sample.show_number Sample.time_value
                                    Sample.the_world "/videos/a.mp4" ∅ true)
                                 (constructor VNull)))) <= 5)%nat.
Proof.
  exact (proj2 (reported_percentages_are_positive Sample.show_number Sample.time_value
                  Sample.the_world "/videos/a.mp4" ∅ true (constructor VNull))
           1000 (requestMetadata_literal ∅) eq_refl eq_refl).
Defined.

Section StatusOrder.

Variable Number_toString : number -> string.
Variable Date_timeValue : value -> option Z.
Variable w : world.

(** A percentage above one that has reached a threshold has reached it
    too. *)
Lemma ge_of_lt (c p1 p2 : number) : ge p1 c = true -> lt p1 p2 = true -> ge p2 c = true.
Proof.
  unfold ge, lt, SFleb, SFltb.
  destruct (SFcompare c p1) as [[]|] eqn:E1; try discriminate;
    destruct (SFcompare p1 p2) as [[]|] eqn:E2; try discriminate; intros _ _.
  - now rewrite (SFcompare_Eq_l _ _ _ _ E1 E2).
  - now rewrite (SFcompare_trans _ _ _ _ E1 E2).
Qed.

(** X18: over an upload the status label never goes back: once a snapshot
    says 'Verarbeite Video...' every later one does, and after a snapshot
    that says 'Fast fertig...' none says 'Uploading...' again. *)
Theorem status_never_goes_back (path : string) (md : gmap string value)
    (has_callback : bool) (this : instance) (before between after : list Snapshot.t)
    (s1 s2 : Snapshot.t) :
  callbacks (trace (run (uploadVideo Number_toString Date_timeValue w path md has_callback) this))
  = before ++ s1 :: between ++ s2 :: after ->
  (Snapshot.status s1 = "Verarbeite Video..." -> Snapshot.status s2 = "Verarbeite Video...")
  /\ (Snapshot.status s1 = "Fast fertig..." -> Snapshot.status s2 <> "Uploading...")
  /\ (Snapshot.status s2 = "Uploading..." -> Snapshot.status s1 = "Uploading...").
Proof.
  intros Hsplit.
  destruct (uploadVideo_callbacks_cases Number_toString Date_timeValue w path md has_callback this)
    as [H|(size & req & _ & _ & H)]; rewrite H in Hsplit.
  { destruct before; discriminate Hsplit. }
  clear H.
  assert (Hin1 : s1 ∈ emitted_snapshots Number_toString (of_Z size) (Date_now w) (of_Z 0)
                        (remote_videos_insert w req path).1)
    by (rewrite Hsplit; apply elem_of_app; right; left).
  assert (Hin2 : s2 ∈ emitted_snapshots Number_toString (of_Z size) (Date_now w) (of_Z 0)
                        (remote_videos_insert w req path).1).
  { rewrite Hsplit. apply elem_of_app. right. right. apply elem_of_app. right. left. }
  assert (Hlt : lt (Snapshot.progress s1) (Snapshot.progress s2) = true).
  { destruct (emitted_snapshots_sorted Number_toString (of_Z size) (Date_now w)
                (remote_videos_insert w req path).1 (of_Z 0)) as [_ Hsorted].
    rewrite Hsplit in Hsorted.
    replace (before ++ s1 :: between ++ s2 :: after)
      with ((before ++ [s1]) ++ (between ++ s2 :: after)) in Hsorted
      by (rewrite <- app_assoc; reflexivity).
    rewrite map_app in Hsorted.
    apply (StronglySorted_app_1_elem_of _ _ _ _ _ Hsorted).
    - apply list_elem_of_fmap. exists s1. split; [reflexivity|].
      apply elem_of_app. right. left.
    - apply list_elem_of_fmap. exists s2. split; [reflexivity|].
      apply elem_of_app. right. left. }
  destruct (emitted_snapshots_elem _ _ _ _ _ _ Hin1) as (e1 & _ & -> & Hp1).
  destruct (emitted_snapshots_elem _ _ _ _ _ _ Hin2) as (e2 & _ & -> & Hp2).
  rewrite !progress_make_snapshot in Hlt.
  pose proof (make_snapshot_status Number_toString (of_Z size) (Date_now w) e1 Hp1) as Hs1.
  pose proof (make_snapshot_status Number_toString (of_Z size) (Date_now w) e2 Hp2) as Hs2.
  cbv zeta in Hs1, Hs2.
  set (p1 := currentProgress (of_Z size) e1) in *.
  set (p2 := currentProgress (of_Z size) e2) in *.
  assert (H100 : ge p1 (of_Z 100) = true -> ge p2 (of_Z 100) = true)
    by (intros H; exact (ge_of_lt _ _ _ H Hlt)).
  assert (H95 : ge p1 (of_Z 95) = true -> ge p2 (of_Z 95) = true)
    by (intros H; exact (ge_of_lt _ _ _ H Hlt)).
  assert (Hstep : forall p, ge p (of_Z 100) = true -> ge p (of_Z 95) = true)
    by (intros p H; exact (ge_trans p (of_Z 100) (of_Z 95) H eq_refl)).
  destruct Hs1 as [(Ha1 & ->)|[(Ha1 & Hb1 & ->)|(Ha1 & ->)]];
    destruct Hs2 as [(Ha2 & ->)|[(Ha2 & Hb2 & ->)|(Ha2 & ->)]];
    repeat split; intros; try discriminate; try reflexivity; exfalso;
    repeat match goal with
           | H : lt ?p ?c = true |- _ => apply lt_not_ge in H
           end;
    try (specialize (H100 ltac:(assumption))); try (specialize (H95 ltac:(assumption)));
    try (pose proof (Hstep p1 ltac:(assumption))); try (pose proof (Hstep p2 ltac:(assumption)));
    try (specialize (H95 ltac:(assumption))); congruence.
Qed.

End StatusOrder.

Lemma status_never_goes_back_witness :
  Snapshot.status (make_snapshot Sample.show_number (of_Z 1000) 5000 (Sample.evt 2000 5500))
  = "Verarbeite Video...".
Proof.
  refine (proj1 (status_never_goes_back Sample.show_number Sample.time_value
            (Sample.make_world [Sample.evt 990 5300; Sample.evt 1000 5400; Sample.evt 2000 5500]
               None)
            "/videos/a.mp4" ∅ true (constructor VNull)
            [make_snapshot Sample.show_number (of_Z 1000) 5000 (Sample.evt 990 5300)] [] []
            (make_snapshot Sample.show_number (of_Z 1000) 5000 (Sample.evt 1000 5400))
            (make_snapshot Sample.show_number (of_Z 1000) 5000 (Sample.evt 2000 5500)) _) _).
  - vm_compute. reflexivity.
  - vm_compute. reflexivity.
Defined.
